(** * SandboxPythonExecute: the sandboxed execution tool of OpenManus

    Shallow embedding of [src/app/tool/sandbox_python_execute.py].

    Python [str] values are Rocq strings (characters are code points below
    256), Python [int] is [Z], and the coroutine [execute] is a computation
    in a state-and-exception monad: an exception keeps the state changes
    made before it was raised, exactly as a Python [raise] does.

    The sandbox client [SANDBOX_CLIENT] lives in another module of the
    repository ([app.sandbox.client]) that is not embedded here.  What its
    calls answer is a parameter of the development (a [Provider], consulted
    with the history of the calls made so far); how [create] and [cleanup]
    move the client's [sandbox] attribute is taken from section 6 of the
    specification.  [_installed_packages] is a class attribute: one list
    for the whole process. *)

From Stdlib Require Import String Ascii List ZArith Bool Lia PeanoNat.
From Stdlib Require Import DecimalString.
Import ListNotations.
Local Open Scope string_scope.

(** ** Python string operations used by the tool *)

Module PyStr.

Definition nl : string := String (ascii_of_nat 10) EmptyString.

(** [bool(s)] for a string: non-empty. *)
Definition truthy (s : string) : bool :=
  match s with EmptyString => false | String _ _ => true end.

(** [str.isspace] on one code point below 256. *)
Definition is_space (c : ascii) : bool :=
  let n := nat_of_ascii c in
  (((9 <=? n) && (n <=? 13)) || ((28 <=? n) && (n <=? 32))
   || (n =? 133) || (n =? 160))%nat.

Fixpoint lstrip (s : string) : string :=
  match s with
  | EmptyString => EmptyString
  | String c s' => if is_space c then lstrip s' else s
  end.

Definition reverse (s : string) : string :=
  string_of_list_ascii (rev (list_ascii_of_string s)).

Definition rstrip (s : string) : string := reverse (lstrip (reverse s)).

(** [s.strip()] *)
Definition strip (s : string) : string := rstrip (lstrip s).

(** [s.split(sep)] for a one-character separator: never the empty list. *)
Fixpoint split (sep : ascii) (s : string) : list string :=
  match s with
  | EmptyString => [EmptyString]
  | String c s' =>
      if Ascii.eqb c sep then EmptyString :: split sep s'
      else match split sep s' with
           | [] => [String c EmptyString]
           | piece :: rest => String c piece :: rest
           end
  end.

(** [sep.join(l)] *)
Fixpoint join (sep : string) (l : list string) : string :=
  match l with
  | [] => EmptyString
  | [x] => x
  | x :: rest => x ++ sep ++ join sep rest
  end.

(** [str.lower] on one code point below 256. *)
Definition lower_char (c : ascii) : ascii :=
  let n := nat_of_ascii c in
  if (((65 <=? n) && (n <=? 90))
      || ((192 <=? n) && (n <=? 222) && negb (n =? 215)))%nat
  then ascii_of_nat (n + 32) else c.

Fixpoint lower (s : string) : string :=
  match s with
  | EmptyString => EmptyString
  | String c s' => String (lower_char c) (lower s')
  end.

(** [s.startswith(pre)] *)
Fixpoint startswith (pre s : string) : bool :=
  match pre with
  | EmptyString => true
  | String a pre' =>
      match s with
      | EmptyString => false
      | String b s' => Ascii.eqb a b && startswith pre' s'
      end
  end.

(** [sub in s] *)
Fixpoint contains (sub s : string) : bool :=
  startswith sub s
  || match s with
     | EmptyString => false
     | String _ s' => contains sub s'
     end.

(** [str(n)] for an integer. *)
Definition of_int (n : Z) : string := NilZero.string_of_int (Z.to_int n).

(** [x in l] for a list of strings. *)
Definition mem (x : string) (l : list string) : bool :=
  existsb (String.eqb x) l.

End PyStr.

(** ** The sandbox provider *)

(** The calls the tool sends to [SANDBOX_CLIENT]. *)
Inductive Call : Type :=
| CCreate (network_enabled : bool)
| CWriteFile (path content : string)
| CRunCommand (cmd : string) (timeout : Z)
| CCleanup.

(** Modelled from the spec: the fault classes of the Sandbox Provider
    (section 6); the exception classes themselves are declared with the
    client, in [app.sandbox]. *)
Inductive FaultKind : Type :=
| ProvisioningError
| FilesystemError
| TimeoutError
| CommandError
| ProviderUnavailableError.

(** A raised exception: its class and [str(e)]. *)
Record Fault : Type := mkFault { fault_kind : FaultKind; fault_msg : string }.

Inductive Outcome : Type :=
| Done (out : string)
| Raised (e : Fault).

Record Event : Type := mkEvent { ev_call : Call; ev_outcome : Outcome }.

(** The provider answers a call knowing every call answered before it. *)
Definition Provider : Type := list Event -> Call -> Outcome.

(** ** State *)

(** The object held in [SANDBOX_CLIENT.sandbox]: its identity and the
    network setting it was created with. *)
Record Sandbox : Type := mkSandbox { sb_id : nat; sb_network_enabled : bool }.

Record State : Type := mkState {
  sandbox : option Sandbox;            (* SANDBOX_CLIENT.sandbox *)
  installed_packages : list string;    (* SandboxPythonExecute._installed_packages *)
  config_network_enabled : bool;       (* config.sandbox.network_enabled *)
  trace : list Event                   (* provider calls so far, oldest first *)
}.

Definition set_sandbox (sb : option Sandbox) (s : State) : State :=
  mkState sb (installed_packages s) (config_network_enabled s) (trace s).

Definition set_installed (l : list string) (s : State) : State :=
  mkState (sandbox s) l (config_network_enabled s) (trace s).

Definition set_config_network (b : bool) (s : State) : State :=
  mkState (sandbox s) (installed_packages s) b (trace s).

Definition log (e : Event) (s : State) : State :=
  mkState (sandbox s) (installed_packages s) (config_network_enabled s)
          (trace s ++ [e]).

(** A fresh process: no sandbox, nothing installed. *)
Definition init (default_network : bool) : State :=
  mkState None [] default_network [].

(** ** Computations that may raise *)

Inductive Result (A : Type) : Type :=
| Val (a : A)
| Exc (e : Fault).
Arguments Val {A} a.
Arguments Exc {A} e.

Definition M (A : Type) : Type := State -> Result A * State.

Definition ret {A} (a : A) : M A := fun s => (Val a, s).

Definition bind {A B} (m : M A) (k : A -> M B) : M B :=
  fun s => match m s with
           | (Val a, s') => k a s'
           | (Exc e, s') => (Exc e, s')
           end.

(** [try: m  except Exception as e: h e] *)
Definition try_except {A} (m : M A) (h : Fault -> M A) : M A :=
  fun s => match m s with
           | (Val a, s') => (Val a, s')
           | (Exc e, s') => h e s'
           end.

(** [try: m  finally: f]: [f] runs on every exit of [m]; an exception of
    [f] replaces the outcome of [m]. *)
Definition try_finally {A} (m : M A) (f : M unit) : M A :=
  fun s => match m s with
           | (r, s') => match f s' with
                        | (Val _, s'') => (r, s'')
                        | (Exc e, s'') => (Exc e, s'')
                        end
           end.

Definition get {A} (f : State -> A) : M A := fun s => (Val (f s), s).
Definition modify (f : State -> State) : M unit := fun s => (Val tt, f s).

Declare Scope py_scope.
Delimit Scope py_scope with py.
Notation "x <- m ;; k" := (bind m (fun x => k))
  (at level 100, m at next level, right associativity) : py_scope.
Notation "m ;; k" := (bind m (fun _ => k))
  (at level 100, right associativity) : py_scope.
Local Open Scope py_scope.

(** ** The tool *)

(** [ToolResult(output=..., error=...)]; [error] defaults to [None]. *)
Record ToolResult : Type := mkToolResult {
  output : string;
  error : option string
}.

(** The keyword arguments of [execute]. *)
Record Args : Type := mkArgs {
  code : string;
  timeout : Z;
  install_packages : string;
  allow_network : bool;
  auto_terminate : bool
}.

Definition script_filename : string := "execution_script.py".

(** [[pkg.strip() for pkg in install_packages.split(",") if pkg.strip()]] *)
Definition parse_packages (install_packages : string) : list string :=
  filter PyStr.truthy (map PyStr.strip (PyStr.split "," install_packages)).

(** [[pkg for pkg in packages if pkg not in self._installed_packages]] *)
Definition packages_to_install (packages installed : list string) : list string :=
  filter (fun pkg => negb (PyStr.mem pkg installed)) packages.

(** [f"pip install {' '.join(packages_to_install)} --no-cache-dir"] *)
Definition install_cmd (to_install : list string) : string :=
  "pip install " ++ PyStr.join " " to_install ++ " --no-cache-dir".

(** [f"python {script_filename}"] *)
Definition run_cmd : string := "python " ++ script_filename.

(** The result returned when the install command raised [e]. *)
Definition install_failed_result (e : Fault) : ToolResult :=
  mkToolResult
    ("Error installing packages: " ++ fault_msg e ++ PyStr.nl
     ++ "Execution terminated. Please check package names or try increasing timeout."
     ++ PyStr.nl ++ "Please use the terminate tool to end the session.")
    (Some (fault_msg e)).

(** The message of a completed run. *)
Definition success_message (result : string) (timeout : Z) (allow_network : bool)
  : string :=
  "Code execution completed successfully! Output:" ++ PyStr.nl ++ PyStr.nl
  ++ result ++ PyStr.nl ++ PyStr.nl
  ++ "Execution environment: Docker sandbox (Python)" ++ PyStr.nl
  ++ "Timeout setting: " ++ PyStr.of_int timeout ++ " seconds" ++ PyStr.nl
  ++ "Network access: " ++ (if allow_network then "Enabled" else "Disabled")
  ++ PyStr.nl
  ++ PyStr.nl
  ++ "Task completed. To execute other code, please send a new request; if no further tasks, use the terminate tool to end the session.".

Definition success_result (result : string) (timeout : Z) (allow_network : bool)
  : ToolResult :=
  mkToolResult (success_message result timeout allow_network) None.

(** The first [return] of the outer handler. *)
Definition timed_out_result (timeout : Z) : ToolResult :=
  mkToolResult
    ("Execution timed out after " ++ PyStr.of_int timeout
     ++ " seconds. The code might be too complex, contain infinite loops, or require more time to complete. Please modify the code or increase the timeout."
     ++ PyStr.nl ++ "Please use the terminate tool to end the session.")
    (Some ("Timeout after " ++ PyStr.of_int timeout ++ "s")).

(** The second [return] of the outer handler. *)
Definition exec_error_result (error_msg : string) : ToolResult :=
  mkToolResult
    ("Error executing code: " ++ error_msg ++ PyStr.nl
     ++ "Please use the terminate tool to end the session.")
    (Some error_msg).

(** [except Exception as e:] of [execute]: the class of [e] is not looked
    at, only the text of [str(e)]. *)
Definition except_handler (timeout : Z) (e : Fault) : ToolResult :=
  let error_msg := fault_msg e in
  if PyStr.contains "timeout" (PyStr.lower error_msg)
  then timed_out_result timeout
  else exec_error_result error_msg.

Section Tool.

Variable P : Provider.

(** [await SANDBOX_CLIENT.write_file(..)] and
    [await SANDBOX_CLIENT.run_command(..)]: the provider answers, the call
    is recorded, a fault is raised to the caller. *)
Definition provider_call (c : Call) : M string :=
  fun s =>
    let o := P (trace s) c in
    let s' := log (mkEvent c o) s in
    match o with
    | Done out => (Val out, s')
    | Raised e => (Exc e, s')
    end.

Definition write_file (path content : string) : M string :=
  provider_call (CWriteFile path content).

Definition run_command (cmd : string) (timeout : Z) : M string :=
  provider_call (CRunCommand cmd timeout).

(** Modelled from the spec: [SANDBOX_CLIENT.create], the provider's
    [ensureReady(config) -> EnvironmentHandle], which "fails with
    ProvisioningError if the underlying isolation mechanism cannot be
    started": a handle exists after it if and only if it did not fail.
    The new handle remembers the network setting of the config it was
    created from. *)
Definition create (network_enabled : bool) : M unit :=
  fun s =>
    let o := P (trace s) (CCreate network_enabled) in
    let s' := log (mkEvent (CCreate network_enabled) o) s in
    match o with
    | Done _ =>
        (Val tt,
         set_sandbox (Some (mkSandbox (length (trace s)) network_enabled)) s')
    | Raised e => (Exc e, s')
    end.

(** Modelled from the spec: [SANDBOX_CLIENT.cleanup], the provider's
    [cleanup() -> success], "idempotent; safe to call on an
    already-destroyed handle": it does not fail and no handle exists after
    it. *)
Definition cleanup : M unit :=
  fun s => (Val tt, set_sandbox None (log (mkEvent CCleanup (Done "")) s)).

(** [reset_sandbox] *)
Definition reset_sandbox : M unit :=
  sb <- get sandbox ;;
  match sb with
  | Some _ =>
      cleanup ;;
      modify (set_installed [])
  | None => ret tt
  end.

(** Lines 87-92: the sandbox is created when there is none. *)
Definition ensure_sandbox (allow_network : bool) : M unit :=
  sb <- get sandbox ;;
  match sb with
  | Some _ => ret tt
  | None =>
      (* sandbox_config = config.sandbox is the shared config object *)
      modify (set_config_network allow_network) ;;
      sandbox_config <- get config_network_enabled ;;
      create sandbox_config
  end.

(** Lines 95-122.  [Some r] stands for [return r] out of [execute],
    [None] for falling through to the next statement. *)
Definition install_phase (install_packages : string) : M (option ToolResult) :=
  if PyStr.truthy install_packages then
    let packages := parse_packages install_packages in
    installed <- get installed_packages ;;
    let to_install := packages_to_install packages installed in
    match to_install with
    | [] => ret None
    | _ :: _ =>
        try_except
          (_ <- run_command (install_cmd to_install) 120 ;;
           modify (fun s => set_installed (installed_packages s ++ to_install) s) ;;
           ret None)
          (fun e => ret (Some (install_failed_result e)))
    end
  else ret None.

(** The body of the outer [try]. *)
Definition try_body (a : Args) : M ToolResult :=
  ensure_sandbox (allow_network a) ;;
  early <- install_phase (install_packages a) ;;
  match early with
  | Some r => ret r
  | None =>
      write_file script_filename (code a) ;;
      result <- run_command run_cmd (timeout a) ;;
      ret (success_result result (timeout a) (allow_network a))
  end.

(** The [try]/[except] of [execute], without its [finally]. *)
Definition attempt (a : Args) : M ToolResult :=
  try_except (try_body a) (fun e => ret (except_handler (timeout a) e)).

(** The [finally] block. *)
Definition teardown (a : Args) : M unit :=
  if auto_terminate a then reset_sandbox else ret tt.

Definition execute (a : Args) : M ToolResult :=
  try_finally (attempt a) (teardown a).

End Tool.

(** ** Observing the provider calls of one operation *)

Definition is_create (e : Event) : bool :=
  match ev_call e with CCreate _ => true | _ => false end.

Definition is_cleanup (e : Event) : bool :=
  match ev_call e with CCleanup => true | _ => false end.

Definition is_write (e : Event) : bool :=
  match ev_call e with CWriteFile _ _ => true | _ => false end.

(** An install command is a [run_command] of a [pip install] line. *)
Definition is_install (e : Event) : bool :=
  match ev_call e with
  | CRunCommand cmd _ => PyStr.startswith "pip install " cmd
  | _ => false
  end.

(** The run command is the [run_command] of the script. *)
Definition is_run (e : Event) : bool :=
  match ev_call e with
  | CRunCommand cmd _ => String.eqb cmd run_cmd
  | _ => false
  end.

Definition raised (e : Event) : bool :=
  match ev_outcome e with Raised _ => true | Done _ => false end.

Definition count (f : Event -> bool) (evs : list Event) : nat :=
  length (filter f evs).

(** Some call selected by [f] raised. *)
Definition faulted (f : Event -> bool) (evs : list Event) : bool :=
  existsb (fun ev => f ev && raised ev) evs.

(** The provider calls made between state [s] and a later state [s']. *)
Definition emitted (s s' : State) : list Event :=
  skipn (length (trace s)) (trace s').

Definition ev_cleanup : Event := mkEvent CCleanup (Done "").

(** The creation that [execute a] asks for in state [s] is granted. *)
Definition creation_succeeds (P : Provider) (a : Args) (s : State) : Prop :=
  exists out, P (trace s) (CCreate (allow_network a)) = Done out.

(** The tracker never outlives the handle. *)
Definition tracker_inv (s : State) : Prop :=
  sandbox s = None -> installed_packages s = [].

(** The operations a caller has: a request, or an explicit reset. *)
Inductive Op : Type :=
| OpExecute (a : Args)
| OpReset.

Definition step (P : Provider) (o : Op) (s : State) : State :=
  match o with
  | OpExecute a => snd (execute P a s)
  | OpReset => snd (reset_sandbox s)
  end.

(** The states of a process that only runs the tool's operations. *)
Inductive reachable (P : Provider) : State -> Prop :=
| reach_init : forall b, reachable P (init b)
| reach_step : forall o s, reachable P s -> reachable P (step P o s).

(** ** Concrete providers, faults and requests for the examples *)

(** Every call succeeds and prints [out]. *)
Definition provider_ok (out : string) : Provider := fun _ _ => Done out.

(** [pip] fails on a command line that mentions [bad]. *)
Definition provider_rejects (bad : string) : Provider :=
  fun _ c =>
    match c with
    | CRunCommand cmd _ =>
        if PyStr.startswith "pip install " cmd && PyStr.contains bad cmd
        then Raised (mkFault CommandError
                       ("No matching distribution found for " ++ bad))
        else Done ""
    | _ => Done ""
    end.

(** Running the script raises [e]; every other call succeeds. *)
Definition provider_run_raises (e : Fault) : Provider :=
  fun _ c =>
    match c with
    | CRunCommand cmd _ => if String.eqb cmd run_cmd then Raised e else Done ""
    | _ => Done ""
    end.

(** The first creation fails (the container runtime is not up yet); every
    later call succeeds. *)
Definition provider_late_start : Provider :=
  fun history c =>
    match c, history with
    | CCreate _, [] =>
        Raised (mkFault ProvisioningError "Docker is not running")
    | _, _ => Done ""
    end.

Definition fault_timed_out : Fault :=
  mkFault TimeoutError "Command execution timed out after 2 seconds".

Definition fault_timeout_text : Fault :=
  mkFault TimeoutError "Timeout: the command exceeded 2 seconds".

Definition fault_socket : Fault :=
  mkFault CommandError "socket.timeout: timed out".

Definition fault_zero_div : Fault :=
  mkFault CommandError "ZeroDivisionError: division by zero".

Definition fault_no_dist : Fault :=
  mkFault CommandError "No matching distribution found for nosuchpkg".

Definition req_plain : Args := mkArgs "print(1+1)" 10 "" false false.
Definition req_net : Args := mkArgs "print(1+1)" 10 "" true false.
Definition req_sleep : Args :=
  mkArgs "import time; time.sleep(100)" 2 "" false false.
Definition req_sleep_terminate : Args :=
  mkArgs "import time; time.sleep(100)" 2 "" false true.
Definition req_numpy : Args := mkArgs "import numpy" 30 "numpy, pandas" false false.
Definition req_bad : Args := mkArgs "import nosuchpkg" 30 "nosuchpkg" false false.
Definition req_bad_terminate : Args :=
  mkArgs "import nosuchpkg" 30 "nosuchpkg" false true.

(** The state after [numpy] and [pandas] were installed in a fresh process. *)
Definition s_numpy : State :=
  snd (execute (provider_rejects "nosuchpkg") req_numpy (init false)).

(** The state after one plain request without network access. *)
Definition s_plain : State := snd (execute (provider_ok "2") req_plain (init false)).

(** ** Further observers of requests *)

(** [s.endswith(suf)] *)
Definition endswith (suf s : string) : bool :=
  PyStr.startswith (PyStr.reverse suf) (PyStr.reverse s).

(** The closing words of every message of the tool. *)
Definition terminate_hint : string :=
  "use the terminate tool to end the session.".

(** A package name as [pip] should get it: not empty, without comma, without
    blanks around it. *)
Definition clean_name (p : string) : bool :=
  PyStr.truthy p && negb (PyStr.contains "," p) && String.eqb (PyStr.strip p) p.

(** After a call that raised, only the teardown may follow. *)
Fixpoint stops_at_fault (evs : list Event) : bool :=
  match evs with
  | [] => true
  | e :: rest =>
      if raised e then forallb is_cleanup rest else stops_at_fault rest
  end.

(** The calls sorted by phase: creation, install, write, run, teardown. *)
Definition by_phase (evs : list Event) : list Event :=
  (filter is_create evs ++ filter is_install evs ++ filter is_write evs
   ++ filter is_run evs ++ filter is_cleanup evs)%list.

(** [lstrip] and [strip] on the list of characters. *)
Fixpoint drop_spaces (l : list ascii) : list ascii :=
  match l with
  | [] => []
  | c :: l' => if PyStr.is_space c then drop_spaces l' else l
  end.

Definition strip_chars (l : list ascii) : list ascii :=
  rev (drop_spaces (rev (drop_spaces l))).

(** The first character, if there is one, is not a blank. *)
Definition head_not_space (l : list ascii) : Prop :=
  match l with
  | [] => True
  | c :: _ => PyStr.is_space c = false
  end.

(** The state after [numpy] and [pandas] were installed, every call
    succeeding. *)
Definition s_numpy_ok : State :=
  snd (execute (provider_ok "") req_numpy (init false)).

(** ** The command-line runner ([src/run_sandbox_python.py]) *)

(** The attributes of [args] after [parser.parse_args()]: [--code] and
    [--file] are [None] when not given. *)
Record CliArgs : Type := mkCliArgs {
  arg_code : option string;
  arg_file : option string;
  arg_packages : string;
  arg_timeout : Z;
  arg_network : bool
}.

(** [bool(x)] for [x : Optional[str]]. *)
Definition opt_truthy (o : option string) : bool :=
  match o with
  | Some s => PyStr.truthy s
  | None => false
  end.

(** [line.strip().lower() == "eof"] *)
Definition is_eof_line (line : string) : bool :=
  String.eqb (PyStr.lower (PyStr.strip line)) "eof".

(** The interactive loop of [main]: [stdin] holds the lines [input()] will
    return, and [input()] raises [EOFError] after the last one. *)
Fixpoint read_code_lines (stdin : list string) : list string :=
  match stdin with
  | [] => []
  | line :: rest =>
      if is_eof_line line then [] else line :: read_code_lines rest
  end.

(** [open(path, "r").read()]: the content, or the exception raised. *)
Definition FileSystem : Type := string -> Result string.

(** How [main] comes out of its code selection. *)
Inductive Selection : Type :=
| RunCode (code : string)       (* goes on to [run_sandbox_code] *)
| ReadFailed (e : Fault)        (* "Failed to read file", return *)
| NoCode.                       (* "No code provided, exiting", return *)

(** [if not code.strip(): ... return] *)
Definition check_code (code : string) : Selection :=
  if PyStr.truthy (PyStr.strip code) then RunCode code else NoCode.

(** Lines 87-114 of [main]. *)
Definition select_code (fs : FileSystem) (stdin : list string) (args : CliArgs)
  : Selection :=
  if opt_truthy (arg_code args) then
    match arg_code args with
    | Some c => check_code c
    | None => NoCode
    end
  else if opt_truthy (arg_file args) then
    match arg_file args with
    | Some path =>
        match fs path with
        | Val content => check_code content
        | Exc e => ReadFailed e
        end
    | None => NoCode
    end
  else check_code (PyStr.join PyStr.nl (read_code_lines stdin)).

(** The instruction [run_sandbox_code] sends to the agent. *)
Definition build_prompt (code packages : string) (timeout : Z)
    (allow_network : bool) : string :=
  "Please execute the following Python code in the sandbox environment, and terminate the session immediately after completion."
  ++ PyStr.nl ++ PyStr.nl
  ++ (if PyStr.truthy packages then "Required packages: " ++ packages else "")
  ++ PyStr.nl
  ++ "Timeout setting: " ++ PyStr.of_int timeout ++ " seconds" ++ PyStr.nl
  ++ "Allow network access: " ++ (if allow_network then "Yes" else "No")
  ++ PyStr.nl ++ PyStr.nl
  ++ "```python" ++ PyStr.nl ++ code ++ PyStr.nl ++ "```" ++ PyStr.nl ++ PyStr.nl
  ++ "After execution is complete, please use the terminate tool to end the session.".

(** What the agent does with a prompt under a step limit: the outcome of
    [agent.run(prompt)] and whether [agent.state] is [FINISHED] afterwards.
    The agent ([app.agent.manus]) is a parameter. *)
Record AgentRun : Type := mkAgentRun {
  run_outcome : Result string;
  finished : bool
}.

Definition Agent : Type := string -> Z -> AgentRun.

(** What [run_sandbox_code] hands back and did: the returned text, the
    step limit it set, and whether it executed the [Terminate] tool. *)
Record RunReport : Type := mkRunReport {
  returned : string;
  max_steps_used : Z;
  terminate_executed : bool
}.

(** [run_sandbox_code], from the [try] on; [max_steps] is the limit the new
    agent comes with and [terminate] the outcome of
    [terminate_tool.execute()]. *)
Definition run_sandbox_code (agent : Agent) (max_steps : Z)
    (terminate : Result string)
    (code packages : string) (timeout : Z) (allow_network : bool) : RunReport :=
  let prompt := build_prompt code packages timeout allow_network in
  let steps := Z.min max_steps 15 in
  let r := agent prompt steps in
  match run_outcome r with
  | Exc e => mkRunReport ("Execution failed: " ++ fault_msg e) steps false
  | Val result =>
      if negb (finished r) then
        match terminate with
        | Val _ => mkRunReport result steps true
        | Exc e => mkRunReport ("Execution failed: " ++ fault_msg e) steps true
        end
      else mkRunReport result steps false
  end.

(** ** The sandbox test script ([src/test_sandbox.py]) *)

(** [subprocess.run(argv, capture_output=True, text=True)]: the process
    completed, or the program was not found, or another exception. *)
Inductive ProcOutcome : Type :=
| Completed (returncode : Z) (stdout : string)
| FileNotFound
| ProcRaised (e : Fault).

(** The host answers the [n]-th subprocess call of the script. *)
Definition Subprocess : Type := nat -> list string -> ProcOutcome.

(** What the Docker probe has done so far. *)
Record Probe : Type := mkProbe {
  sp_calls : nat;        (* subprocess calls *)
  checks : nat;          (* calls of [check_docker] *)
  sleeps : list Z        (* arguments of [asyncio.sleep] *)
}.

(** [check_docker]: only [FileNotFoundError] is caught. *)
Definition check_docker (sp : Subprocess) (st : Probe) : Result bool * Probe :=
  let n := sp_calls st in
  let k := S (checks st) in
  match sp n ["docker"; "--version"] with
  | FileNotFound => (Val false, mkProbe (n + 1) k (sleeps st))
  | ProcRaised e => (Exc e, mkProbe (n + 1) k (sleeps st))
  | Completed rc _ =>
      if negb (rc =? 0)%Z then (Val false, mkProbe (n + 1) k (sleeps st))
      else
        match sp (n + 1) ["docker"; "info"] with
        | FileNotFound => (Val false, mkProbe (n + 2) k (sleeps st))
        | ProcRaised e => (Exc e, mkProbe (n + 2) k (sleeps st))
        | Completed rc2 _ =>
            if negb (rc2 =? 0)%Z
            then (Val false, mkProbe (n + 2) k (sleeps st))
            else (Val true, mkProbe (n + 2) k (sleeps st))
        end
  end.

(** The loop of [wait_for_docker] from index [i], [todo] rounds left. *)
Fixpoint wait_from (sp : Subprocess) (max_retries retry_interval : Z)
    (i : nat) (todo : nat) (st : Probe) : Result bool * Probe :=
  match todo with
  | O => (Val false, st)
  | S todo' =>
      match check_docker sp st with
      | (Exc e, st1) => (Exc e, st1)
      | (Val true, st1) => (Val true, st1)
      | (Val false, st1) =>
          let st2 :=
            if (Z.of_nat i <? max_retries - 1)%Z
            then mkProbe (sp_calls st1) (checks st1)
                         (sleeps st1 ++ [retry_interval])
            else st1 in
          wait_from sp max_retries retry_interval (S i) todo' st2
      end
  end.

(** [wait_for_docker(max_retries, retry_interval)]; [range(max_retries)] is
    empty for a limit of zero or less. *)
Definition wait_for_docker (sp : Subprocess) (max_retries retry_interval : Z)
    (st : Probe) : Result bool * Probe :=
  wait_from sp max_retries retry_interval 0 (Z.to_nat max_retries) st.

(** [SandboxSettings(...)] as the test builds it. *)
Record SandboxSettings : Type := mkSandboxSettings {
  use_sandbox : bool;
  image : string;
  work_dir : string;
  memory_limit : string;
  cpu_limit : Decimal.decimal;          (* a float, kept as its literal *)
  settings_timeout : Z;
  network_enabled : bool
}.

(** The calls the test script sends to [SANDBOX_CLIENT]: [create] with or
    without a config, [run_command] with or without a timeout. *)
Inductive TCall : Type :=
| TCreate (config : option SandboxSettings)
| TWriteFile (path content : string)
| TReadFile (path : string)
| TRunCommand (cmd : string) (timeout : option Z)
| TCleanup.

Record TEvent : Type := mkTEvent { tev_call : TCall; tev_outcome : Outcome }.

Definition TProvider : Type := list TEvent -> TCall -> Outcome.

(** A test computation: it extends the list of calls and may raise. *)
Definition T (A : Type) : Type := list TEvent -> Result A * list TEvent.

Definition tret {A} (a : A) : T A := fun tr => (Val a, tr).

Definition tbind {A B} (m : T A) (k : A -> T B) : T B :=
  fun tr => match m tr with
            | (Val a, tr') => k a tr'
            | (Exc e, tr') => (Exc e, tr')
            end.

Definition ttry_except {A} (m : T A) (h : Fault -> T A) : T A :=
  fun tr => match m tr with
            | (Val a, tr') => (Val a, tr')
            | (Exc e, tr') => h e tr'
            end.

Definition ttry_finally {A} (m : T A) (f : T unit) : T A :=
  fun tr => match m tr with
            | (r, tr') => match f tr' with
                          | (Val _, tr'') => (r, tr'')
                          | (Exc e, tr'') => (Exc e, tr'')
                          end
            end.

(** One call of the client; the provider answers. *)
Definition tcall (Q : TProvider) (c : TCall) : T string :=
  fun tr =>
    let o := Q tr c in
    match o with
    | Done out => (Val out, (tr ++ [mkTEvent c o])%list)
    | Raised e => (Exc e, (tr ++ [mkTEvent c o])%list)
    end.

(** Modelled from the spec: [SANDBOX_CLIENT.cleanup], which does not fail
    (section 6 of the specification). *)
Definition tcleanup : T unit :=
  fun tr => (Val tt, (tr ++ [mkTEvent TCleanup (Done "")])%list).

Definition tev_cleanup : TEvent := mkTEvent TCleanup (Done "").

Definition traised (e : TEvent) : bool :=
  match tev_outcome e with Raised _ => true | Done _ => false end.

Definition dq : string := String (ascii_of_nat 34) EmptyString.

Definition test_settings : SandboxSettings :=
  mkSandboxSettings true "python:3.12-slim" "/workspace" "512m"
    (Decimal.Decimal (Decimal.Pos (Decimal.D1 Decimal.Nil)) (Decimal.D0 Decimal.Nil))
    60 true.

Definition test_content : string :=
  PyStr.nl
  ++ "print(" ++ dq ++ "Hello from sandbox!" ++ dq ++ ")" ++ PyStr.nl
  ++ "import platform" ++ PyStr.nl
  ++ "import sys" ++ PyStr.nl
  ++ "print(f" ++ dq ++ "Python version: {platform.python_version()}" ++ dq ++ ")"
  ++ PyStr.nl
  ++ "print(f" ++ dq ++ "Platform: {platform.platform()}" ++ dq ++ ")" ++ PyStr.nl
  ++ "print(f" ++ dq ++ "Sys path: {sys.path}" ++ dq ++ ")" ++ PyStr.nl.

Definition numpy_test : string :=
  PyStr.nl
  ++ "import numpy as np" ++ PyStr.nl
  ++ "arr = np.array([1, 2, 3, 4, 5])" ++ PyStr.nl
  ++ "print(f" ++ dq ++ "NumPy array: {arr}" ++ dq ++ ")" ++ PyStr.nl
  ++ "print(f" ++ dq ++ "Mean: {np.mean(arr)}" ++ dq ++ ")" ++ PyStr.nl
  ++ "print(f" ++ dq ++ "Sum: {np.sum(arr)}" ++ dq ++ ")" ++ PyStr.nl.

Definition timeout_script : string :=
  PyStr.nl
  ++ "import time" ++ PyStr.nl
  ++ "print(" ++ dq ++ "Starting infinite loop..." ++ dq ++ ")" ++ PyStr.nl
  ++ "while True:" ++ PyStr.nl
  ++ "    print(" ++ dq ++ "." ++ dq ++ ", end=" ++ dq ++ dq ++ ", flush=True)"
  ++ PyStr.nl
  ++ "    time.sleep(1)" ++ PyStr.nl.

(** The calls of the [try] block of [run_basic_test], in their order. *)
Definition basic_calls : list TCall :=
  [TCreate (Some test_settings);
   TWriteFile "test_script.py" test_content;
   TReadFile "test_script.py";
   TRunCommand "python test_script.py" None;
   TRunCommand "pip install numpy --no-cache-dir" (Some 120%Z);
   TWriteFile "numpy_test.py" numpy_test;
   TRunCommand "python numpy_test.py" None].

Section TestScript.

Variable Q : TProvider.

(** [run_basic_test] *)
Definition run_basic_test : T bool :=
  ttry_finally
    (ttry_except
       (tbind (tcall Q (TCreate (Some test_settings))) (fun _ =>
        tbind (tcall Q (TWriteFile "test_script.py" test_content)) (fun _ =>
        tbind (tcall Q (TReadFile "test_script.py")) (fun file_content =>
        tbind (tcall Q (TRunCommand "python test_script.py" None)) (fun result =>
        tbind (tcall Q (TRunCommand "pip install numpy --no-cache-dir"
                          (Some 120%Z))) (fun _ =>
        tbind (tcall Q (TWriteFile "numpy_test.py" numpy_test)) (fun _ =>
        tbind (tcall Q (TRunCommand "python numpy_test.py" None)) (fun result =>
        tret true))))))))
       (fun e => tret false))
    tcleanup.

(** [test_sandbox_timeout]: [Some b] stands for [return b], [None] for
    reaching the end of the function, which returns Python's [None]. *)
Definition test_sandbox_timeout : T (option bool) :=
  ttry_finally
    (ttry_except
       (tbind (tcall Q (TCreate None)) (fun _ =>
        tbind (tcall Q (TWriteFile "timeout_test.py" timeout_script)) (fun _ =>
        ttry_except
          (tbind (tcall Q (TRunCommand "python timeout_test.py" (Some 5%Z)))
             (fun result => tret None))
          (fun e => tret (Some true)))))
       (fun e => tret (Some false)))
    tcleanup.

End TestScript.

(** [bool(x)] for the value a test returned. *)
Definition verdict (r : option bool) : bool :=
  match r with Some true => true | _ => false end.

(** What [main] of the test script logs about the tests. *)
Inductive TestLog : Type :=
| DockerNotReady
| BasicPassed
| BasicFailed
| TimeoutPassed
| TimeoutFailed.

(** [main] of the test script: the Docker probe starts fresh, the client has
    made no call yet. *)
Definition test_main (sp : Subprocess) (Q : TProvider)
  : Result (list TestLog) * Probe * list TEvent :=
  match wait_for_docker sp 3 5 (mkProbe 0 0 []) with
  | (Exc e, st) => (Exc e, st, [])
  | (Val false, st) => (Val [DockerNotReady], st, [])
  | (Val true, st) =>
      match run_basic_test Q [] with
      | (Exc e, tr) => (Exc e, st, tr)
      | (Val false, tr) => (Val [BasicFailed], st, tr)
      | (Val true, tr) =>
          match test_sandbox_timeout Q tr with
          | (Exc e, tr') => (Exc e, st, tr')
          | (Val r, tr') =>
              (Val [BasicPassed;
                    if verdict r then TimeoutPassed else TimeoutFailed],
               st, tr')
          end
      end
  end.

(** ** Further concrete inputs and observers *)

Definition fault_pip_timeout : Fault :=
  mkFault TimeoutError "ReadTimeoutError: HTTPSConnectionPool: Read timed out.".

(** The install command raises [e]; every other call succeeds. *)
Definition provider_pip_raises (e : Fault) : Provider :=
  fun _ c =>
    match c with
    | CRunCommand cmd _ =>
        if PyStr.startswith "pip install " cmd then Raised e else Done ""
    | _ => Done ""
    end.

(** The state after one request that asked for network access. *)
Definition s_net : State := snd (execute (provider_ok "2") req_net (init false)).

(** Whether an operation ends with the teardown. *)
Definition resets (o : Op) : bool :=
  match o with
  | OpReset => true
  | OpExecute a => auto_terminate a
  end.

(** The [create()] without config, which only the timeout test makes. *)
Definition is_timeout_create (e : TEvent) : bool :=
  match tev_call e with TCreate None => true | _ => false end.

(** The [create(config=...)] of the basic test. *)
Definition is_basic_create (e : TEvent) : bool :=
  match tev_call e with TCreate (Some _) => true | _ => false end.

Definition is_tcleanup (e : TEvent) : bool :=
  match tev_call e with TCleanup => true | _ => false end.

Definition tcount (f : TEvent -> bool) (evs : list TEvent) : nat :=
  length (filter f evs).

(** ** Proof automation *)

(** Case analysis on the scrutinee of an innermost [match] of the goal. *)
Ltac break_match :=
  match goal with
  | |- context [match ?x with _ => _ end] =>
      lazymatch x with
      | context [match _ with _ => _ end] => fail
      | _ => destruct x eqn:?
      end
  end.

(** Unfolds the control flow of the tool, leaving strings and observers
    folded. *)
Ltac unfold_tool :=
  cbv beta iota zeta delta
    [execute try_finally attempt try_except try_body teardown reset_sandbox
     ensure_sandbox install_phase write_file run_command provider_call
     create cleanup bind ret get modify step
     set_sandbox set_installed set_config_network log
     sandbox installed_packages config_network_enabled trace
     code timeout install_packages allow_network auto_terminate fst snd].

(** Follows every path of the tool: one goal per path. *)
Ltac run_tool := repeat (unfold_tool; try break_match).

(** Brings [emitted s s'] to the explicit list of events of the path. *)
Ltac norm_trace :=
  unfold emitted; cbn [trace];
  repeat rewrite <- app_assoc; cbn [app];
  autorewrite with trace_db; cbn [length];
  autorewrite with trace_db; cbn [skipn].

(** Follows every path of a test of the test script. *)
Ltac run_test :=
  repeat (cbv beta iota zeta delta
            [run_basic_test test_sandbox_timeout ttry_finally ttry_except
             tbind tret tcall tcleanup fst snd];
          try break_match).

(** ** Basic facts *)

Lemma skipn_app_exact {A} (l r : list A) : skipn (length l) (l ++ r) = r.
Proof. induction l; simpl; auto. Qed.

Lemma skipn_length_plus {A} (l r : list A) (n : nat) :
  skipn (length l + n) (l ++ r) = skipn n r.
Proof. induction l; simpl; auto. Qed.

Create Rewrite HintDb trace_db.
#[local] Hint Rewrite @length_app @skipn_length_plus @skipn_app_exact @skipn_all
  : trace_db.

Lemma emitted_refl (s : State) : emitted s s = [].
Proof. unfold emitted. apply skipn_all. Qed.

Lemma install_cmd_is_install (l : list string) :
  PyStr.startswith "pip install " (install_cmd l) = true.
Proof. reflexivity. Qed.

Lemma install_cmd_not_run (l : list string) :
  String.eqb (install_cmd l) run_cmd = false.
Proof. reflexivity. Qed.

Lemma run_cmd_not_install : PyStr.startswith "pip install " run_cmd = false.
Proof. reflexivity. Qed.

Lemma is_run_not_install (ev : Event) : is_run ev = true -> is_install ev = false.
Proof.
  unfold is_run, is_install. destruct (ev_call ev); try reflexivity.
  intros H. apply String.eqb_eq in H. subst. exact run_cmd_not_install.
Qed.

(** [split] never returns the empty list, as in Python. *)
Lemma split_not_nil (sep : ascii) (s : string) : PyStr.split sep s <> [].
Proof.
  induction s as [|c s IH]; simpl; [discriminate|].
  destruct (Ascii.eqb c sep); [discriminate|].
  destruct (PyStr.split sep s); [contradiction | discriminate].
Qed.

(** Joining the pieces with the separator gives the string back. *)
Lemma join_split (sep : ascii) (s : string) :
  PyStr.join (String sep EmptyString) (PyStr.split sep s) = s.
Proof.
  induction s as [|c s IH]; simpl; [reflexivity|].
  destruct (Ascii.eqb c sep) eqn:E.
  - apply Ascii.eqb_eq in E. subst c.
    pose proof (split_not_nil sep s) as Hne.
    destruct (PyStr.split sep s) as [|p ps]; [contradiction|].
    simpl in *. now rewrite IH.
  - pose proof (split_not_nil sep s) as Hne.
    destruct (PyStr.split sep s) as [|p ps]; [contradiction|].
    destruct ps as [|q qs]; simpl in *; now rewrite <- IH.
Qed.

(** No package name handed to [pip] is empty. *)
Lemma parse_packages_truthy (install_packages pkg : string) :
  In pkg (parse_packages install_packages) -> pkg <> "".
Proof.
  unfold parse_packages. intros H. apply filter_In in H.
  destruct H as [_ H]. now destruct pkg.
Qed.

Lemma parse_packages_falsy (install_packages : string) :
  PyStr.truthy install_packages = false -> parse_packages install_packages = [].
Proof. destruct install_packages; [reflexivity | discriminate]. Qed.

Lemma mem_in (x : string) (l : list string) : PyStr.mem x l = true <-> In x l.
Proof.
  unfold PyStr.mem. rewrite existsb_exists. split.
  - intros [y [Hy Heq]]. apply String.eqb_eq in Heq. now subst.
  - intros H. exists x. split; [assumption | apply String.eqb_refl].
Qed.

Lemma mem_not_in (x : string) (l : list string) :
  PyStr.mem x l = false <-> ~ In x l.
Proof.
  rewrite <- mem_in. destruct (PyStr.mem x l); split; intros H;
    try discriminate; try reflexivity; try (now intros H'); now contradiction H.
Qed.

(** [packages_to_install] is the difference of the request and the tracker,
    in the order of the request. *)
Lemma packages_to_install_diff (packages installed : list string) (p : string) :
  In p (packages_to_install packages installed) <->
  In p packages /\ ~ In p installed.
Proof.
  unfold packages_to_install. rewrite filter_In, negb_true_iff, mem_not_in.
  reflexivity.
Qed.

Lemma packages_to_install_app (p1 p2 installed : list string) :
  packages_to_install (p1 ++ p2) installed =
  (packages_to_install p1 installed ++ packages_to_install p2 installed)%list.
Proof. apply filter_app. Qed.

Lemma filter_none {A} (f : A -> bool) (l : list A) :
  (forall x, In x l -> f x = false) -> filter f l = [].
Proof.
  induction l as [|x l IH]; simpl; intros H; [reflexivity|].
  rewrite (H x (or_introl eq_refl)). apply IH. intros y Hy. apply H. now right.
Qed.

(** Once every requested package is installed, nothing is left to install. *)
Lemma packages_to_install_nil (packages installed : list string) :
  (forall p, In p packages -> In p installed) ->
  packages_to_install packages installed = [].
Proof.
  intros H. apply filter_none. intros p Hp.
  apply negb_false_iff, mem_in, H, Hp.
Qed.

(** After the missing packages are appended, none is missing. *)
Lemma packages_to_install_done (packages installed : list string) :
  packages_to_install packages
    (installed ++ packages_to_install packages installed) = [].
Proof.
  apply packages_to_install_nil. intros p Hp. apply in_or_app.
  destruct (PyStr.mem p installed) eqn:E.
  - left. now apply mem_in.
  - right. apply packages_to_install_diff. split; [assumption|].
    now apply mem_not_in.
Qed.

Lemma except_handler_output (t : Z) (e : Fault) :
  output (except_handler t e) <> "".
Proof. unfold except_handler. destruct (PyStr.contains _ _); discriminate. Qed.

Lemma except_handler_error (t : Z) (e : Fault) :
  error (except_handler t e) <> None.
Proof. unfold except_handler. destruct (PyStr.contains _ _); discriminate. Qed.

(** ** Sample runs *)

Example parse_packages_sample :
  parse_packages " numpy , pandas,, requests ," = ["numpy"; "pandas"; "requests"].
Proof. reflexivity. Qed.

Example install_cmd_sample :
  install_cmd ["numpy"; "pandas"] = "pip install numpy pandas --no-cache-dir".
Proof. reflexivity. Qed.

(** The scenario of the specification: [print(1+1)] on a fresh session. *)
Example execute_print_sample :
  execute (provider_ok "2") req_plain (init false)
  = (Val (success_result "2" 10 false),
     mkState (Some (mkSandbox 0 false)) [] false
       [mkEvent (CCreate false) (Done "2");
        mkEvent (CWriteFile "execution_script.py" "print(1+1)") (Done "2");
        mkEvent (CRunCommand "python execution_script.py" 10) (Done "2")]).
Proof. reflexivity. Qed.

Example s_numpy_sample :
  s_numpy
  = mkState (Some (mkSandbox 0 false)) ["numpy"; "pandas"] false
      [mkEvent (CCreate false) (Done "");
       mkEvent (CRunCommand "pip install numpy pandas --no-cache-dir" 120) (Done "");
       mkEvent (CWriteFile "execution_script.py" "import numpy") (Done "");
       mkEvent (CRunCommand "python execution_script.py" 30) (Done "")].
Proof. reflexivity. Qed.

(** ** The tracker invariant *)

Lemma step_preserves_tracker_inv (P : Provider) (o : Op) (s : State) :
  tracker_inv s -> tracker_inv (step P o s).
Proof.
  unfold tracker_inv.
  destruct o as [a|]; [destruct a as [c t ip an at_]|];
    destruct s as [sb inst cfg tr].
  all: run_tool; cbn; intros H; subst; try discriminate; auto.
Qed.

Lemma reachable_tracker_inv (P : Provider) (s : State) :
  reachable P s -> tracker_inv s.
Proof.
  induction 1 as [b | o s _ IH].
  - intros _. reflexivity.
  - now apply step_preserves_tracker_inv.
Qed.

(** ** Failure policy and teardown *)

(** C1: [execute] always returns a [ToolResult] and never lets an exception
    out: whatever the provider answers to the creation, the install command,
    the file write and the run command, in every state, the outcome is a
    value; its message is not empty, and it is a failure result (its [error]
    is set) exactly when one of the provider calls of this request raised. *)
Theorem execute_returns_result (P : Provider) (a : Args) (s : State) :
  exists r s',
    execute P a s = (Val r, s') /\
    output r <> "" /\
    (error r <> None <-> existsb raised (emitted s s') = true).
Proof.
  destruct a as [c t ip an at_], s as [sb inst cfg tr].
  run_tool.
  all: eexists; eexists; (split; [reflexivity|]).
  all: norm_trace.
  all: split; [ first [apply except_handler_output | discriminate] |].
  all: cbn.
  all: try (split; [ intros _; reflexivity
                   | intros _; first [apply except_handler_error | discriminate] ]).
  all: split; [ intros H; now contradiction H | discriminate ].
Qed.

(** C2: with [auto_terminate] set, [reset_sandbox] runs at every exit of the
    [try]/[except] part, whatever happened there: the provider's [cleanup] is
    called if a sandbox exists at that point; after [execute] has returned no
    sandbox exists, the tracker is empty, and one more [reset_sandbox]
    changes nothing and calls nothing. *)
Theorem auto_terminate_always_resets (P : Provider) (a : Args) (s : State) :
  reachable P s ->
  auto_terminate a = true ->
  let s1 := snd (attempt P a s) in
  let s' := snd (execute P a s) in
  s' = snd (reset_sandbox s1) /\
  emitted s1 s' = match sandbox s1 with Some _ => [ev_cleanup] | None => [] end /\
  sandbox s' = None /\
  installed_packages s' = [] /\
  reset_sandbox s' = (Val tt, s').
Proof.
  intros Hr Hat. apply reachable_tracker_inv in Hr. revert Hr Hat.
  unfold tracker_inv.
  destruct a as [c t ip an at_], s as [sb inst cfg tr].
  cbn [auto_terminate sandbox installed_packages]. intros Hinv ->.
  run_tool.
  all: norm_trace; repeat split; auto.
Qed.

(** Witness of C2: a run command that times out, on a fresh process. *)
Lemma auto_terminate_always_resets_witness :
  reachable (provider_run_raises fault_timed_out) (init false) /\
  auto_terminate req_sleep_terminate = true /\
  sandbox (snd (execute (provider_run_raises fault_timed_out)
                        req_sleep_terminate (init false))) = None.
Proof.
  split; [apply reach_init|]. split; [reflexivity|].
  apply (auto_terminate_always_resets (provider_run_raises fault_timed_out)
           req_sleep_terminate (init false)).
  - apply reach_init.
  - reflexivity.
Defined.

(** C9: the tracker only grows within a session and is emptied together
    with the handle.  For every operation started in a reachable state: an
    operation that ends with the teardown ([reset_sandbox], or a request with
    [auto_terminate]) leaves no sandbox and an empty tracker, and calls the
    provider's [cleanup] when a sandbox existed; any other operation calls no
    [cleanup], keeps the sandbox it found and only appends names to the
    tracker.  The tracker loses names only with a [cleanup] call; whenever no
    sandbox exists the tracker is empty; and a creation only ever happens
    with an empty tracker. *)
Theorem tracker_monotone_until_reset (P : Provider) (o : Op) (s : State) :
  reachable P s ->
  let s' := step P o s in
  (resets o = true ->
     sandbox s' = None /\ installed_packages s' = [] /\
     (forall h, sandbox s = Some h -> count is_cleanup (emitted s s') = 1)) /\
  (resets o = false ->
     count is_cleanup (emitted s s') = 0 /\
     (exists added, installed_packages s' = (installed_packages s ++ added)%list) /\
     (forall h, sandbox s = Some h -> sandbox s' = Some h)) /\
  (count is_cleanup (emitted s s') = 0 ->
     exists added, installed_packages s' = (installed_packages s ++ added)%list) /\
  (count is_cleanup (emitted s s') <> 0 ->
     sandbox s' = None /\ installed_packages s' = []) /\
  (sandbox s' = None -> installed_packages s' = []) /\
  (forall ev, In ev (emitted s s') -> is_create ev = true ->
     sandbox s = None /\ installed_packages s = []).
Proof.
  intros Hr. apply reachable_tracker_inv in Hr. revert Hr.
  unfold tracker_inv.
  destruct o as [a|]; [destruct a as [c t ip an at_]|];
    destruct s as [sb inst cfg tr].
  all: cbn [sandbox installed_packages resets auto_terminate]; intros Hinv.
  all: run_tool; norm_trace; cbn.
  all: repeat split; intros; subst; try discriminate; try lia; auto.
  all: try (exists []; now rewrite app_nil_r).
  all: try (eexists; reflexivity).
  all: try (rewrite Hinv by reflexivity; exists []; reflexivity).
  all: try congruence.
  all: intuition (subst; auto; discriminate).
Qed.

(** Witness of C9: a reset after two packages were installed. *)
Lemma tracker_monotone_until_reset_witness :
  reachable (provider_ok "") s_numpy_ok /\
  installed_packages s_numpy_ok = ["numpy"; "pandas"] /\
  sandbox s_numpy_ok = Some (mkSandbox 0 false) /\
  sandbox (step (provider_ok "") OpReset s_numpy_ok) = None /\
  installed_packages (step (provider_ok "") OpReset s_numpy_ok) = [].
Proof.
  assert (R : reachable (provider_ok "") s_numpy_ok).
  { apply (reach_step (provider_ok "") (OpExecute req_numpy)). apply reach_init. }
  split; [exact R|]. split; [reflexivity|]. split; [reflexivity|].
  pose proof (tracker_monotone_until_reset (provider_ok "") OpReset
                s_numpy_ok R) as H.
  cbv zeta in H. destruct H as (H & _).
  destruct (H eq_refl) as (H1 & H2 & _). split; assumption.
Defined.

(** ** Dependency installation *)

(** A request whose packages are all tracked sends no install command. *)
Lemma no_install_when_installed (P : Provider) (a : Args) (s : State) :
  packages_to_install (parse_packages (install_packages a))
                      (installed_packages s) = [] ->
  count is_install (emitted s (snd (execute P a s))) = 0.
Proof.
  destruct a as [c t ip an at_], s as [sb inst cfg tr].
  cbn [install_packages installed_packages]. intros H.
  run_tool; norm_trace; try reflexivity; congruence.
Qed.

(** A request that keeps its sandbox and whose creation and install command
    did not raise has recorded its whole batch, with one install command if
    the batch was not empty. *)
Lemma installed_after_install_phase (P : Provider) (a : Args) (s : State) :
  auto_terminate a = false ->
  let s' := snd (execute P a s) in
  let batch :=
    packages_to_install (parse_packages (install_packages a))
                        (installed_packages s) in
  faulted (fun ev => is_create ev || is_install ev) (emitted s s') = false ->
  installed_packages s' = (installed_packages s ++ batch)%list /\
  count is_install (emitted s s') = match batch with [] => 0 | _ :: _ => 1 end.
Proof.
  cbv zeta.
  destruct a as [c t ip an at_], s as [sb inst cfg tr].
  cbn [auto_terminate install_packages installed_packages]. intros ->.
  run_tool; norm_trace; intros H.
  all: try rewrite (parse_packages_falsy ip) by assumption.
  all: cbn [packages_to_install filter].
  all: rewrite ?app_nil_r.
  all: try (split; reflexivity).
  all: try (cbn in H; discriminate).
  all: rewrite (parse_packages_falsy ip) in * by assumption; discriminate.
Qed.

(** Counterexample of C3: the same package list twice in a row, in one
    environment, does not always make exactly one install command.  With an
    empty list no install command is sent at all; with a list whose install
    command fails, the second request sends it again: two install commands. *)
Lemma same_packages_twice_not_one_install :
  count is_install
    (emitted (init false)
       (snd (execute (provider_ok "2") req_plain
          (snd (execute (provider_ok "2") req_plain (init false)))))) = 0
  /\
  count is_install
    (emitted (init false)
       (snd (execute (provider_rejects "nosuchpkg") req_bad
          (snd (execute (provider_rejects "nosuchpkg") req_bad (init false))))))
  = 2
  /\
  sandbox (snd (execute (provider_rejects "nosuchpkg") req_bad
             (snd (execute (provider_rejects "nosuchpkg") req_bad (init false)))))
  = sandbox (snd (execute (provider_rejects "nosuchpkg") req_bad (init false))).
Proof. repeat split; vm_compute; reflexivity. Qed.

(** C3, amended: two requests in a row with the same package list, the first
    one keeping its sandbox and raising neither at the creation nor at the
    install command.  The second request finds nothing to install and sends
    no install command; over both requests one install command is sent if
    the first request found a package that was not tracked yet, and none
    otherwise.  What is to install is the request's list without the tracked
    names, in the order of the request. *)
Theorem install_idempotent_after_success
    (P : Provider) (a1 a2 : Args) (s : State) :
  let s1 := snd (execute P a1 s) in
  let s2 := snd (execute P a2 s1) in
  install_packages a2 = install_packages a1 ->
  auto_terminate a1 = false ->
  faulted (fun ev => is_create ev || is_install ev) (emitted s s1) = false ->
  packages_to_install (parse_packages (install_packages a2))
                      (installed_packages s1) = [] /\
  count is_install (emitted s1 s2) = 0 /\
  count is_install (emitted s s1) + count is_install (emitted s1 s2) =
    match packages_to_install (parse_packages (install_packages a1))
                              (installed_packages s) with
    | [] => 0
    | _ :: _ => 1
    end.
Proof.
  cbv zeta. intros Hsame Hat Hok.
  destruct (installed_after_install_phase P a1 s Hat Hok) as [Hinst Hcount].
  assert (H0 : packages_to_install (parse_packages (install_packages a2))
                 (installed_packages (snd (execute P a1 s))) = []).
  { rewrite Hsame, Hinst. apply packages_to_install_done. }
  pose proof (no_install_when_installed P a2 _ H0) as H2.
  split; [exact H0|]. split; [exact H2|].
  rewrite H2, Hcount. now rewrite Nat.add_0_r.
Qed.

(** Witness of C3, amended: [numpy, pandas] requested twice. *)
Lemma install_idempotent_after_success_witness :
  install_packages req_numpy = install_packages req_numpy /\
  auto_terminate req_numpy = false /\
  faulted (fun ev => is_create ev || is_install ev)
    (emitted (init false) (snd (execute (provider_ok "") req_numpy (init false))))
  = false /\
  count is_install
    (emitted (snd (execute (provider_ok "") req_numpy (init false)))
       (snd (execute (provider_ok "") req_numpy
               (snd (execute (provider_ok "") req_numpy (init false)))))) = 0.
Proof.
  split; [reflexivity|]. split; [reflexivity|]. split; [reflexivity|].
  apply (install_idempotent_after_success (provider_ok "") req_numpy req_numpy
           (init false)); reflexivity.
Defined.

(** Counterexample of C4: an install command that fails does not always
    leave the tracker as it was.  After [numpy] and [pandas] were installed,
    a request with [auto_terminate] whose install command fails returns the
    install failure and leaves the tracker empty. *)
Lemma install_fault_with_auto_terminate_empties_tracker :
  installed_packages s_numpy = ["numpy"; "pandas"] /\
  fst (execute (provider_rejects "nosuchpkg") req_bad_terminate s_numpy)
  = Val (install_failed_result fault_no_dist) /\
  installed_packages
    (snd (execute (provider_rejects "nosuchpkg") req_bad_terminate s_numpy)) = [].
Proof. repeat split; vm_compute; reflexivity. Qed.

(** C4, amended: when the install command of a request raises [e], the
    request returns the install failure built from [e], no file is written
    and the script is not run, and no name is added to the tracker: it is
    left exactly as it was when [auto_terminate] is off, and it is emptied by
    the teardown when [auto_terminate] is on. *)
Theorem install_fault_short_circuits (P : Provider) (a : Args) (s : State)
    (ev : Event) (e : Fault) :
  let s' := snd (execute P a s) in
  In ev (emitted s s') -> is_install ev = true -> ev_outcome ev = Raised e ->
  fst (execute P a s) = Val (install_failed_result e) /\
  count is_write (emitted s s') = 0 /\
  count is_run (emitted s s') = 0 /\
  installed_packages s' = (if auto_terminate a then [] else installed_packages s) /\
  (forall p, In p (installed_packages s') -> In p (installed_packages s)).
Proof.
  destruct a as [c t ip an at_], s as [sb inst cfg tr].
  run_tool; norm_trace; cbn.
  all: intros Hin Hi He.
  all: intuition (subst; try discriminate).
  all: cbn in *; try discriminate.
  all: inversion He; subst; auto.
Qed.

(** Witness of C4, amended: a package that does not exist, after two
    packages were installed. *)
Lemma install_fault_short_circuits_witness :
  In (mkEvent (CRunCommand (install_cmd ["nosuchpkg"]) 120) (Raised fault_no_dist))
     (emitted s_numpy
        (snd (execute (provider_rejects "nosuchpkg") req_bad s_numpy))) /\
  fst (execute (provider_rejects "nosuchpkg") req_bad s_numpy)
  = Val (install_failed_result fault_no_dist) /\
  installed_packages (snd (execute (provider_rejects "nosuchpkg") req_bad s_numpy))
  = ["numpy"; "pandas"].
Proof.
  assert (Hin : In (mkEvent (CRunCommand (install_cmd ["nosuchpkg"]) 120)
                            (Raised fault_no_dist))
                   (emitted s_numpy
                      (snd (execute (provider_rejects "nosuchpkg") req_bad
                              s_numpy)))).
  { vm_compute. left. reflexivity. }
  split; [exact Hin|].
  pose proof (install_fault_short_circuits (provider_rejects "nosuchpkg")
                req_bad s_numpy _ fault_no_dist Hin eq_refl eq_refl) as H.
  cbv zeta in H. destruct H as (H1 & _ & _ & H4 & _).
  split; [exact H1|]. rewrite H4. reflexivity.
Defined.

(** ** Classification of faults *)

(** A fault of any call other than the install command reaches the outer
    handler, which builds the result from the text of the fault alone. *)
Lemma fault_outside_install (P : Provider) (a : Args) (s : State)
    (ev : Event) (e : Fault) :
  In ev (emitted s (snd (execute P a s))) ->
  is_install ev = false -> ev_outcome ev = Raised e ->
  fst (execute P a s) = Val (except_handler (timeout a) e).
Proof.
  destruct a as [c t ip an at_], s as [sb inst cfg tr].
  run_tool; norm_trace; cbn.
  all: intros Hin Hi He.
  all: intuition (subst; try discriminate).
  all: cbn in *; try discriminate.
  all: inversion He; subst; auto.
Qed.

(** Counterexample of C5: a run command that the provider reports with a
    [TimeoutError] is not always classified as a timeout.  When the text of
    the fault reads "timed out" and not "timeout", the request returns the
    generic execution error, not the timeout result. *)
Lemma timeout_fault_not_classified_by_kind :
  fault_kind fault_timed_out = TimeoutError /\
  In (mkEvent (CRunCommand run_cmd 2) (Raised fault_timed_out))
     (emitted (init false)
        (snd (execute (provider_run_raises fault_timed_out) req_sleep
                (init false)))) /\
  fst (execute (provider_run_raises fault_timed_out) req_sleep (init false))
  = Val (exec_error_result "Command execution timed out after 2 seconds") /\
  exec_error_result "Command execution timed out after 2 seconds"
  <> timed_out_result 2.
Proof.
  split; [reflexivity|]. split; [vm_compute; auto|].
  split; [vm_compute; reflexivity | discriminate].
Qed.

(** C5, amended: when the run command raises a fault whose text contains
    "timeout" in any letter case, the request returns the timeout result: a
    failure whose [error] is "Timeout after <timeout>s" and whose message
    gives the timeout of the request, says that the code may be too complex,
    loop for ever or need more time, and advises to change the code or to
    increase the timeout. *)
Theorem timeout_text_classified (P : Provider) (a : Args) (s : State)
    (ev : Event) (e : Fault) :
  In ev (emitted s (snd (execute P a s))) ->
  is_run ev = true -> ev_outcome ev = Raised e ->
  PyStr.contains "timeout" (PyStr.lower (fault_msg e)) = true ->
  fst (execute P a s) = Val (timed_out_result (timeout a)) /\
  error (timed_out_result (timeout a))
  = Some ("Timeout after " ++ PyStr.of_int (timeout a) ++ "s").
Proof.
  intros Hin Hrun He Htxt. split; [|reflexivity].
  rewrite (fault_outside_install P a s ev e Hin (is_run_not_install ev Hrun) He).
  unfold except_handler. now rewrite Htxt.
Qed.

(** Witness of C5, amended: a timeout fault whose text says "Timeout". *)
Lemma timeout_text_classified_witness :
  In (mkEvent (CRunCommand run_cmd 2) (Raised fault_timeout_text))
     (emitted (init false)
        (snd (execute (provider_run_raises fault_timeout_text) req_sleep
                (init false)))) /\
  PyStr.contains "timeout" (PyStr.lower (fault_msg fault_timeout_text)) = true /\
  fst (execute (provider_run_raises fault_timeout_text) req_sleep (init false))
  = Val (timed_out_result 2).
Proof.
  assert (Hin : In (mkEvent (CRunCommand run_cmd 2) (Raised fault_timeout_text))
                   (emitted (init false)
                      (snd (execute (provider_run_raises fault_timeout_text)
                              req_sleep (init false))))).
  { vm_compute. auto. }
  split; [exact Hin|]. split; [reflexivity|].
  apply (timeout_text_classified (provider_run_raises fault_timeout_text)
           req_sleep (init false) _ fault_timeout_text Hin eq_refl eq_refl
           eq_refl).
Defined.

(** Counterexample of C6: the classification looks at the text of the fault,
    not at its origin.  A script that exits abnormally with the diagnostic
    "socket.timeout: timed out" (a [CommandError], within its deadline) gets
    the timeout result, whose message does not include the diagnostic. *)
Lemma command_fault_classified_by_text :
  fault_kind fault_socket = CommandError /\
  fst (execute (provider_run_raises fault_socket) req_plain (init false))
  = Val (timed_out_result 10) /\
  PyStr.contains (fault_msg fault_socket) (output (timed_out_result 10)) = false.
Proof. repeat split; vm_compute; reflexivity. Qed.

(** A fault of the install command is answered by the inner handler. *)
Lemma install_fault_result (P : Provider) (a : Args) (s : State)
    (ev : Event) (e : Fault) :
  In ev (emitted s (snd (execute P a s))) ->
  is_install ev = true -> ev_outcome ev = Raised e ->
  fst (execute P a s) = Val (install_failed_result e).
Proof.
  destruct a as [c t ip an at_], s as [sb inst cfg tr].
  run_tool; norm_trace; cbn.
  all: intros Hin Hi He.
  all: intuition (subst; try discriminate).
  all: cbn in *; try discriminate.
  all: inversion He; subst; auto.
Qed.

(** C6, amended: where a fault comes from decides only between the install
    command and the rest.  A fault of the install command gives the install
    failure, whatever its text.  A fault of any other call (creation, file
    write, run command) is classified by its text: when the run command
    raises a fault whose text does not contain "timeout" in any letter case,
    the request returns the generic execution error, whose [error] is the
    text of the fault and whose message includes it, and never the timeout
    result; when the text contains "timeout", the request returns the timeout
    result, whether or not the deadline was exceeded. *)
Theorem fault_classified_by_site_and_text (P : Provider) (a : Args) (s : State)
    (ev : Event) (e : Fault) :
  In ev (emitted s (snd (execute P a s))) ->
  ev_outcome ev = Raised e ->
  fst (execute P a s)
  = Val (if is_install ev then install_failed_result e
         else if PyStr.contains "timeout" (PyStr.lower (fault_msg e))
              then timed_out_result (timeout a)
              else exec_error_result (fault_msg e)) /\
  (is_run ev = true ->
   PyStr.contains "timeout" (PyStr.lower (fault_msg e)) = false ->
   fst (execute P a s) = Val (exec_error_result (fault_msg e)) /\
   output (exec_error_result (fault_msg e))
   = "Error executing code: " ++ fault_msg e ++ PyStr.nl
     ++ "Please use the terminate tool to end the session." /\
   error (exec_error_result (fault_msg e)) = Some (fault_msg e) /\
   exec_error_result (fault_msg e) <> timed_out_result (timeout a)) /\
  (is_run ev = true ->
   PyStr.contains "timeout" (PyStr.lower (fault_msg e)) = true ->
   fst (execute P a s) = Val (timed_out_result (timeout a))).
Proof.
  intros Hin He.
  assert (H : fst (execute P a s)
              = Val (if is_install ev then install_failed_result e
                     else except_handler (timeout a) e)).
  { destruct (is_install ev) eqn:Ei.
    - now apply (install_fault_result P a s ev e).
    - now apply (fault_outside_install P a s ev e). }
  split; [exact H|]. split.
  - intros Hrun Htxt. rewrite H, (is_run_not_install ev Hrun).
    unfold except_handler. rewrite Htxt.
    repeat split; try reflexivity. discriminate.
  - intros Hrun Htxt. rewrite H, (is_run_not_install ev Hrun).
    unfold except_handler. now rewrite Htxt.
Qed.

(** Witness of C6, amended: a division by zero in the script. *)
Lemma fault_classified_by_site_and_text_witness :
  In (mkEvent (CRunCommand run_cmd 10) (Raised fault_zero_div))
     (emitted (init false)
        (snd (execute (provider_run_raises fault_zero_div) req_plain
                (init false)))) /\
  PyStr.contains "timeout" (PyStr.lower (fault_msg fault_zero_div)) = false /\
  fst (execute (provider_run_raises fault_zero_div) req_plain (init false))
  = Val (exec_error_result "ZeroDivisionError: division by zero").
Proof.
  assert (Hin : In (mkEvent (CRunCommand run_cmd 10) (Raised fault_zero_div))
                   (emitted (init false)
                      (snd (execute (provider_run_raises fault_zero_div)
                              req_plain (init false))))).
  { vm_compute. auto. }
  split; [exact Hin|]. split; [reflexivity|].
  pose proof (fault_classified_by_site_and_text
                (provider_run_raises fault_zero_div) req_plain (init false)
                _ fault_zero_div Hin eq_refl) as H.
  destruct H as (_ & H & _). apply H; reflexivity.
Defined.

(** An install command that times out is an install failure, although its
    text contains "timeout". *)
Example install_fault_with_timeout_text :
  PyStr.contains "timeout" (PyStr.lower (fault_msg fault_pip_timeout)) = true /\
  fst (execute (provider_pip_raises fault_pip_timeout) req_numpy (init false))
  = Val (install_failed_result fault_pip_timeout).
Proof. split; vm_compute; reflexivity. Qed.

(** ** The message of a completed run *)

(** C7: the message of a successful run should give the network setting of
    the environment; the code prints the [allow_network] flag of the current
    request instead, and the two differ when a sandbox is reused.  A sandbox
    created without network access and reused by a request that asks for it
    is reported as "Network access: Enabled"; a sandbox created with network
    access and reused by a request that does not ask for it is reported as
    "Network access: Disabled".  In both runs no sandbox is created and the
    setting of the sandbox is unchanged. *)
Lemma message_reports_requested_network :
  sandbox s_plain = Some (mkSandbox 0 false) /\
  sandbox (snd (execute (provider_ok "2") req_net s_plain))
  = Some (mkSandbox 0 false) /\
  count is_create
    (emitted s_plain (snd (execute (provider_ok "2") req_net s_plain))) = 0 /\
  fst (execute (provider_ok "2") req_net s_plain)
  = Val (success_result "2" 10 true) /\
  PyStr.contains "Network access: Enabled" (output (success_result "2" 10 true))
  = true /\
  success_result "2" 10 true <> success_result "2" 10 false /\
  sandbox s_net = Some (mkSandbox 0 true) /\
  sandbox (snd (execute (provider_ok "2") req_plain s_net))
  = Some (mkSandbox 0 true) /\
  fst (execute (provider_ok "2") req_plain s_net)
  = Val (success_result "2" 10 false) /\
  PyStr.contains "Network access: Disabled" (output (success_result "2" 10 false))
  = true.
Proof.
  repeat split; try (vm_compute; reflexivity).
  intros H. apply (f_equal output) in H. vm_compute in H. discriminate.
Qed.

(** What the code composes for a successful run: the output captured from
    the run command, the timeout of the request, and the [allow_network]
    flag of the request, which is the setting of the sandbox when this
    request created it. *)
Theorem success_message_reports_request (P : Provider) (a : Args) (s : State)
    (r : ToolResult) :
  fst (execute P a s) = Val r ->
  error r = None ->
  exists out,
    In (mkEvent (CRunCommand run_cmd (timeout a)) (Done out))
       (emitted s (snd (execute P a s))) /\
    r = success_result out (timeout a) (allow_network a) /\
    (sandbox s = None ->
     sandbox (snd (attempt P a s))
     = Some (mkSandbox (length (trace s)) (allow_network a))).
Proof.
  destruct a as [c t ip an at_], s as [sb inst cfg tr].
  run_tool; norm_trace; cbn.
  all: intros Hr Herr; inversion Hr; subst; clear Hr.
  all: try (exfalso; revert Herr; first [apply except_handler_error | discriminate]).
  all: eexists; split; [auto 10 | split; [reflexivity|]].
  all: intros; first [discriminate | reflexivity].
Qed.

(** ** Lazy creation and reuse of the environment *)

(** A request that finds a sandbox creates none and runs in it. *)
Lemma existing_sandbox_reused (P : Provider) (a : Args) (s : State) (h : Sandbox) :
  sandbox s = Some h ->
  count is_create (emitted s (snd (execute P a s))) = 0 /\
  sandbox (snd (attempt P a s)) = Some h /\
  sandbox (snd (execute P a s)) = (if auto_terminate a then None else Some h).
Proof.
  destruct a as [c t ip an at_], s as [sb inst cfg tr].
  cbn [sandbox]. intros ->.
  run_tool; norm_trace; repeat split; reflexivity.
Qed.

(** Counterexample of C8: two requests in a row without a reset between them
    do not always make exactly one creation, in the first of them.  The second
    and third request of a session find the sandbox of the first and create
    nothing; and when the creation of the first request fails, no handle is
    kept and the second request asks for a creation again: two calls. *)
Lemma environment_not_always_created_once :
  count is_create
    (emitted s_plain
       (snd (execute (provider_ok "2") req_plain
          (snd (execute (provider_ok "2") req_net s_plain))))) = 0
  /\
  count is_create
    (emitted (init false)
       (snd (execute provider_late_start req_plain
          (snd (execute provider_late_start req_plain (init false)))))) = 2
  /\
  sandbox (snd (execute provider_late_start req_plain (init false))) = None.
Proof. repeat split; vm_compute; reflexivity. Qed.

(** C8, amended: two requests in a row, the first one starting without a
    sandbox and not tearing it down, its creation granted by the provider.
    The provider's [create] is called once in the first request and not at
    all in the second; the handle made by that call is the one the first
    request runs in, the one it leaves, and the one the second request runs
    in. *)
Theorem environment_created_once (P : Provider) (a1 a2 : Args) (s : State) :
  sandbox s = None ->
  auto_terminate a1 = false ->
  creation_succeeds P a1 s ->
  let s1 := snd (execute P a1 s) in
  let s2 := snd (execute P a2 s1) in
  count is_create (emitted s s1) = 1 /\
  count is_create (emitted s1 s2) = 0 /\
  exists h,
    sb_id h = length (trace s) /\
    sandbox (snd (attempt P a1 s)) = Some h /\
    sandbox s1 = Some h /\
    sandbox (snd (attempt P a2 s1)) = Some h /\
    sandbox s2 = (if auto_terminate a2 then None else Some h).
Proof.
  cbv zeta. intros Hnone Hat [out Hout].
  assert (H1 : count is_create (emitted s (snd (execute P a1 s))) = 1 /\
               sandbox (snd (attempt P a1 s)) =
                 Some (mkSandbox (length (trace s)) (allow_network a1)) /\
               sandbox (snd (execute P a1 s)) =
                 Some (mkSandbox (length (trace s)) (allow_network a1))).
  { revert Hnone Hat Hout.
    destruct a1 as [c t ip an at_], s as [sb inst cfg tr].
    cbn [sandbox auto_terminate trace allow_network]. intros -> -> Hout.
    run_tool; norm_trace; try (repeat split; reflexivity); congruence. }
  destruct H1 as (Hc & Ha & Hs).
  destruct (existing_sandbox_reused P a2 _ _ Hs) as (Hc2 & Ha2 & Hs2).
  split; [exact Hc|]. split; [exact Hc2|].
  exists (mkSandbox (length (trace s)) (allow_network a1)).
  repeat split; assumption.
Qed.

(** Witness of C8, amended: two plain requests on a fresh process. *)
Lemma environment_created_once_witness :
  sandbox (init false) = None /\
  auto_terminate req_plain = false /\
  creation_succeeds (provider_ok "2") req_plain (init false) /\
  count is_create
    (emitted (init false) (snd (execute (provider_ok "2") req_plain (init false))))
  = 1.
Proof.
  assert (Hc : creation_succeeds (provider_ok "2") req_plain (init false)).
  { exists "2". reflexivity. }
  split; [reflexivity|]. split; [reflexivity|]. split; [exact Hc|].
  apply (environment_created_once (provider_ok "2") req_plain req_net
           (init false) eq_refl eq_refl Hc).
Defined.

(** ** A later fault keeps the installed packages *)

(** C10: a request without [auto_terminate] whose install command succeeded
    and whose file write or run command then raised.  The batch installed by
    the request is in the tracker when the request has returned, and a next
    request with the same package list sends no install command. *)
Theorem install_survives_later_fault (P : Provider) (a a2 : Args) (s : State)
    (ev_i ev_f : Event) (out : string) :
  auto_terminate a = false ->
  let s' := snd (execute P a s) in
  let batch :=
    packages_to_install (parse_packages (install_packages a))
                        (installed_packages s) in
  In ev_i (emitted s s') -> is_install ev_i = true -> ev_outcome ev_i = Done out ->
  In ev_f (emitted s s') -> is_write ev_f || is_run ev_f = true ->
  raised ev_f = true ->
  install_packages a2 = install_packages a ->
  installed_packages s' = (installed_packages s ++ batch)%list /\
  (forall p, In p (parse_packages (install_packages a)) ->
             In p (installed_packages s')) /\
  count is_install (emitted s' (snd (execute P a2 s'))) = 0.
Proof.
  cbv zeta. intros Hat Hi1 Hi2 Hi3 Hf1 Hf2 Hf3 Hsame.
  assert (Hinst : installed_packages (snd (execute P a s)) =
                  (installed_packages s ++
                   packages_to_install (parse_packages (install_packages a))
                     (installed_packages s))%list).
  { revert Hat Hi1 Hi2 Hi3 Hf1 Hf2 Hf3. clear Hsame.
    destruct a as [c t ip an at_], s as [sb inst cfg tr].
    cbn [auto_terminate install_packages installed_packages]. intros ->.
    run_tool; norm_trace; cbn [In].
    all: intros Hi1 Hi2 Hi3 Hf1 Hf2 Hf3.
    all: try reflexivity.
    all: exfalso; intuition (subst; cbn in *; discriminate). }
  assert (H0 : packages_to_install (parse_packages (install_packages a))
                 (installed_packages (snd (execute P a s))) = []).
  { rewrite Hinst. apply packages_to_install_done. }
  split; [exact Hinst|]. split.
  - intros p Hp.
    destruct (PyStr.mem p (installed_packages (snd (execute P a s)))) eqn:E.
    + now apply mem_in.
    + exfalso.
      assert (Hin : In p (packages_to_install
                            (parse_packages (install_packages a))
                            (installed_packages (snd (execute P a s))))).
      { apply packages_to_install_diff. split; [assumption|].
        now apply mem_not_in. }
      rewrite H0 in Hin. exact Hin.
  - apply no_install_when_installed. now rewrite Hsame.
Qed.

(** Witness of C10: two packages are installed, then the script times out. *)
Lemma install_survives_later_fault_witness :
  auto_terminate req_numpy = false /\
  In (mkEvent (CRunCommand (install_cmd ["numpy"; "pandas"]) 120) (Done ""))
     (emitted (init false)
        (snd (execute (provider_run_raises fault_timed_out) req_numpy
                (init false)))) /\
  In (mkEvent (CRunCommand run_cmd 30) (Raised fault_timed_out))
     (emitted (init false)
        (snd (execute (provider_run_raises fault_timed_out) req_numpy
                (init false)))) /\
  count is_install
    (emitted
       (snd (execute (provider_run_raises fault_timed_out) req_numpy (init false)))
       (snd (execute (provider_run_raises fault_timed_out) req_numpy
          (snd (execute (provider_run_raises fault_timed_out) req_numpy
                  (init false)))))) = 0.
Proof.
  assert (Hi : In (mkEvent (CRunCommand (install_cmd ["numpy"; "pandas"]) 120)
                           (Done ""))
                  (emitted (init false)
                     (snd (execute (provider_run_raises fault_timed_out)
                             req_numpy (init false))))).
  { vm_compute. auto. }
  assert (Hf : In (mkEvent (CRunCommand run_cmd 30) (Raised fault_timed_out))
                  (emitted (init false)
                     (snd (execute (provider_run_raises fault_timed_out)
                             req_numpy (init false))))).
  { vm_compute. auto. }
  split; [reflexivity|]. split; [exact Hi|]. split; [exact Hf|].
  apply (install_survives_later_fault (provider_run_raises fault_timed_out)
           req_numpy req_numpy (init false) _ _ "" eq_refl Hi eq_refl eq_refl
           Hf eq_refl eq_refl eq_refl).
Defined.

(** ** The order and the arguments of the provider calls *)

(** X1: the provider calls of one request come in the order creation,
    install, write, run, teardown, each at most once. *)
Theorem calls_in_phase_order (P : Provider) (a : Args) (s : State) :
  let evs := emitted s (snd (execute P a s)) in
  evs = by_phase evs /\
  count is_create evs <= 1 /\ count is_install evs <= 1 /\
  count is_write evs <= 1 /\ count is_run evs <= 1 /\
  count is_cleanup evs <= 1.
Proof.
  destruct a as [c t ip an at_], s as [sb inst cfg tr].
  run_tool; norm_trace; cbn; repeat split; lia.
Qed.

(** X2: a call that raises ends the work of the request: nothing is sent to
    the provider after it, except the [cleanup] of the teardown. *)
Theorem no_call_after_fault (P : Provider) (a : Args) (s : State) :
  stops_at_fault (emitted s (snd (execute P a s))) = true.
Proof.
  destruct a as [c t ip an at_], s as [sb inst cfg tr].
  run_tool; norm_trace; reflexivity.
Qed.

(** X3: what the calls carry.  The creation carries the [allow_network] of
    the request; the install command is the [pip] line of a non-empty batch
    (the requested names that are not tracked) with the fixed timeout 120;
    the code goes unchanged to [execution_script.py]; the script runs with
    the timeout of the request. *)
Theorem call_arguments (P : Provider) (a : Args) (s : State) (ev : Event) :
  In ev (emitted s (snd (execute P a s))) ->
  (is_create ev = true -> ev_call ev = CCreate (allow_network a)) /\
  (is_install ev = true ->
     let batch := packages_to_install (parse_packages (install_packages a))
                                      (installed_packages s) in
     batch <> [] /\ ev_call ev = CRunCommand (install_cmd batch) 120) /\
  (is_write ev = true -> ev_call ev = CWriteFile "execution_script.py" (code a)) /\
  (is_run ev = true ->
     ev_call ev = CRunCommand "python execution_script.py" (timeout a)).
Proof.
  destruct a as [c t ip an at_], s as [sb inst cfg tr].
  run_tool; norm_trace; cbn [In].
  all: intros Hin; (split; [|split; [|split]]); intros Hk.
  all: cbv zeta.
  all: intuition (subst; cbn in *; try discriminate; try reflexivity; auto).
Qed.

(** ** Creation, configuration and reset *)

(** X4: when the creation of the sandbox fails, the request ends there: the
    failed [create] is its only provider call (also with [auto_terminate],
    as there is nothing to clean up), the result is the one of the outer
    handler, no sandbox exists, the tracker is untouched, and the shared
    configuration already carries the [allow_network] of the request. *)
Theorem creation_fault_ends_request (P : Provider) (a : Args) (s : State)
    (e : Fault) :
  sandbox s = None ->
  P (trace s) (CCreate (allow_network a)) = Raised e ->
  execute P a s
  = (Val (except_handler (timeout a) e),
     mkState None (installed_packages s) (allow_network a)
       (trace s ++ [mkEvent (CCreate (allow_network a)) (Raised e)])).
Proof.
  destruct a as [c t ip an at_], s as [sb inst cfg tr].
  cbn [sandbox trace allow_network installed_packages timeout].
  intros -> He. unfold_tool. rewrite He. unfold_tool.
  destruct at_; reflexivity.
Qed.

(** X5: a request without [auto_terminate] never calls [cleanup], whatever
    fails in it: a sandbox that existed before is still there afterwards, and
    no name leaves the tracker. *)
Theorem session_stays_open (P : Provider) (a : Args) (s : State) :
  auto_terminate a = false ->
  let s' := snd (execute P a s) in
  count is_cleanup (emitted s s') = 0 /\
  (forall h, sandbox s = Some h -> sandbox s' = Some h) /\
  (forall p, In p (installed_packages s) -> In p (installed_packages s')).
Proof.
  destruct a as [c t ip an at_], s as [sb inst cfg tr].
  cbn [auto_terminate sandbox installed_packages]. intros ->.
  run_tool; norm_trace; cbn.
  all: repeat split; try congruence; auto.
  all: intros p Hp; apply in_or_app; now left.
Qed.

(** X6: the shared configuration is written only on the way to a creation.
    A request that finds a sandbox leaves [config.sandbox.network_enabled]
    as it is, whatever its own [allow_network]; a request that finds none
    sets it to its [allow_network], also when the creation then fails. *)
Theorem config_written_only_for_creation (P : Provider) (a : Args) (s : State) :
  config_network_enabled (snd (execute P a s))
  = match sandbox s with
    | Some _ => config_network_enabled s
    | None => allow_network a
    end.
Proof.
  destruct a as [c t ip an at_], s as [sb inst cfg tr].
  run_tool; reflexivity.
Qed.

(** ** Strings: strip, split, join *)

Lemma chars_append (a b : string) :
  list_ascii_of_string (a ++ b)
  = (list_ascii_of_string a ++ list_ascii_of_string b)%list.
Proof. induction a as [|c a IH]; simpl; [reflexivity | now rewrite IH]. Qed.

Lemma string_of_chars_app (l r : list ascii) :
  string_of_list_ascii (l ++ r)
  = string_of_list_ascii l ++ string_of_list_ascii r.
Proof. induction l as [|c l IH]; simpl; [reflexivity | now rewrite IH]. Qed.

Lemma chars_reverse (s : string) :
  list_ascii_of_string (PyStr.reverse s) = rev (list_ascii_of_string s).
Proof. unfold PyStr.reverse. apply list_ascii_of_string_of_list_ascii. Qed.

Lemma chars_lstrip (s : string) :
  list_ascii_of_string (PyStr.lstrip s) = drop_spaces (list_ascii_of_string s).
Proof.
  induction s as [|c s IH]; simpl; [reflexivity|].
  destruct (PyStr.is_space c); [exact IH | reflexivity].
Qed.

Lemma chars_strip (s : string) :
  list_ascii_of_string (PyStr.strip s) = strip_chars (list_ascii_of_string s).
Proof.
  unfold PyStr.strip, PyStr.rstrip, strip_chars.
  now rewrite chars_reverse, chars_lstrip, chars_reverse, chars_lstrip.
Qed.

Lemma drop_spaces_incl (l : list ascii) (c : ascii) :
  In c (drop_spaces l) -> In c l.
Proof.
  induction l as [|x l IH]; simpl; [tauto|].
  destruct (PyStr.is_space x); simpl; auto.
Qed.

Lemma strip_chars_incl (l : list ascii) (c : ascii) :
  In c (strip_chars l) -> In c l.
Proof.
  unfold strip_chars. intros H.
  apply in_rev, drop_spaces_incl, in_rev, drop_spaces_incl in H. exact H.
Qed.

Lemma drop_spaces_head (l : list ascii) : head_not_space (drop_spaces l).
Proof.
  induction l as [|x l IH]; simpl; [exact I|].
  destruct (PyStr.is_space x) eqn:E; [exact IH | exact E].
Qed.

Lemma drop_spaces_fixed (l : list ascii) : head_not_space l -> drop_spaces l = l.
Proof. destruct l as [|x l]; simpl; [reflexivity|]. now intros ->. Qed.

Lemma drop_spaces_snoc (l : list ascii) (x : ascii) :
  PyStr.is_space x = false ->
  drop_spaces (l ++ [x]) = (drop_spaces l ++ [x])%list.
Proof.
  intros Hx. induction l as [|y l IH]; simpl.
  - now rewrite Hx.
  - destruct (PyStr.is_space y); [exact IH | reflexivity].
Qed.

Lemma strip_chars_head (l : list ascii) : head_not_space (strip_chars l).
Proof.
  unfold strip_chars.
  pose proof (drop_spaces_head l) as H.
  destruct (drop_spaces l) as [|x t]; [exact I|].
  simpl in H. simpl rev at 2.
  rewrite (drop_spaces_snoc _ _ H), rev_app_distr. simpl. exact H.
Qed.

(** Stripping twice is stripping once. *)
Lemma strip_chars_idem (l : list ascii) : strip_chars (strip_chars l) = strip_chars l.
Proof.
  pose proof (strip_chars_head l) as H.
  unfold strip_chars at 1. rewrite (drop_spaces_fixed _ H).
  unfold strip_chars. rewrite rev_involutive.
  rewrite (drop_spaces_fixed (drop_spaces _) (drop_spaces_head _)).
  reflexivity.
Qed.

Lemma strip_idem (s : string) : PyStr.strip (PyStr.strip s) = PyStr.strip s.
Proof.
  rewrite <- (string_of_list_ascii_of_string (PyStr.strip (PyStr.strip s))).
  rewrite <- (string_of_list_ascii_of_string (PyStr.strip s)) at 2.
  f_equal. rewrite !chars_strip. apply strip_chars_idem.
Qed.

(** [sep in s] for a one-character [sep] looks at each character. *)
Lemma contains_char (sep : ascii) (s : string) :
  PyStr.contains (String sep EmptyString) s
  = existsb (Ascii.eqb sep) (list_ascii_of_string s).
Proof.
  induction s as [|c s IH]; simpl; [reflexivity|].
  rewrite IH. now rewrite andb_true_r.
Qed.

Lemma contains_char_cons (sep c : ascii) (s : string) :
  PyStr.contains (String sep EmptyString) (String c s) = false ->
  Ascii.eqb c sep = false /\ PyStr.contains (String sep EmptyString) s = false.
Proof.
  rewrite !contains_char. simpl. intros H. apply orb_false_elim in H.
  destruct H as [H1 H2]. split; [|exact H2].
  rewrite Ascii.eqb_sym. exact H1.
Qed.

(** No piece of a split contains the separator. *)
Lemma split_pieces_no_sep (sep : ascii) (s p : string) :
  In p (PyStr.split sep s) -> PyStr.contains (String sep EmptyString) p = false.
Proof.
  revert p. induction s as [|c s IH]; simpl; intros p Hp.
  - destruct Hp as [<-|[]]. reflexivity.
  - destruct (Ascii.eqb c sep) eqn:E.
    + destruct Hp as [<-|Hp]; [reflexivity | now apply IH].
    + destruct (PyStr.split sep s) as [|piece rest] eqn:Es.
      * destruct Hp as [<-|[]]. rewrite contains_char. simpl.
        now rewrite Ascii.eqb_sym, E.
      * destruct Hp as [<-|Hp]; [|apply IH; now right].
        rewrite contains_char. simpl. rewrite Ascii.eqb_sym, E. simpl.
        rewrite <- contains_char. apply IH. now left.
Qed.

Lemma split_single (sep : ascii) (x : string) :
  PyStr.contains (String sep EmptyString) x = false -> PyStr.split sep x = [x].
Proof.
  induction x as [|c x IH]; simpl PyStr.split; [reflexivity|]. intros H.
  apply contains_char_cons in H. destruct H as [Hc Hx].
  rewrite Hc, (IH Hx). reflexivity.
Qed.

Lemma split_app_sep (sep : ascii) (x r : string) :
  PyStr.contains (String sep EmptyString) x = false ->
  PyStr.split sep (x ++ String sep r) = x :: PyStr.split sep r.
Proof.
  induction x as [|c x IH]; simpl PyStr.split; simpl append.
  - intros _. simpl. now rewrite Ascii.eqb_refl.
  - intros H. apply contains_char_cons in H. destruct H as [Hc Hx].
    simpl. rewrite Hc, (IH Hx). reflexivity.
Qed.

(** Splitting a joined list gives the list back, if no item contains the
    separator. *)
Lemma split_join (sep : ascii) (items : list string) :
  items <> [] ->
  (forall x, In x items -> PyStr.contains (String sep EmptyString) x = false) ->
  PyStr.split sep (PyStr.join (String sep EmptyString) items) = items.
Proof.
  induction items as [|x items IH]; [congruence|]. intros _ H.
  destruct items as [|y items].
  - simpl. apply split_single, H. now left.
  - change (PyStr.join (String sep EmptyString) (x :: y :: items))
      with (x ++ String sep (PyStr.join (String sep EmptyString) (y :: items))).
    rewrite split_app_sep by (apply H; now left).
    rewrite IH; [reflexivity | discriminate |].
    intros z Hz. apply H. now right.
Qed.

(** X8: every name that [execute] hands to [pip] is clean: not empty, without
    comma, without blanks around it. *)
Theorem parse_packages_clean (install_packages pkg : string) :
  In pkg (parse_packages install_packages) -> clean_name pkg = true.
Proof.
  unfold parse_packages, clean_name. intros H.
  apply filter_In in H. destruct H as [H Ht].
  apply in_map_iff in H. destruct H as [q [<- Hq]].
  rewrite Ht, strip_idem, String.eqb_refl. simpl. rewrite andb_true_r.
  apply negb_true_iff.
  apply split_pieces_no_sep in Hq. rewrite contains_char in *.
  destruct (existsb _ (list_ascii_of_string (PyStr.strip q))) eqn:E;
    [|reflexivity].
  apply existsb_exists in E. destruct E as [c [Hc Heq]].
  rewrite chars_strip in Hc. apply strip_chars_incl in Hc.
  rewrite <- Hq. symmetry. apply existsb_exists. now exists c.
Qed.

(** Items without comma, joined with commas, are parsed item by item. *)
Lemma parse_packages_join (items : list string) :
  (forall x, In x items -> PyStr.contains "," x = false) ->
  parse_packages (PyStr.join "," items)
  = filter PyStr.truthy (map PyStr.strip items).
Proof.
  intros H. unfold parse_packages. destruct items as [|x items].
  - reflexivity.
  - rewrite (split_join ","%char (x :: items)); [reflexivity | discriminate | exact H].
Qed.

(** X9: writing clean names with commas between them and parsing the line
    gives the names back, in their order and with their repetitions. *)
Theorem parse_packages_round_trip (names : list string) :
  (forall n, In n names -> clean_name n = true) ->
  parse_packages (PyStr.join "," names) = names.
Proof.
  intros H. rewrite parse_packages_join.
  - induction names as [|n names IH]; [reflexivity|].
    pose proof (H n (or_introl eq_refl)) as Hn. unfold clean_name in Hn.
    apply andb_true_iff in Hn. destruct Hn as [Hn Hs].
    apply andb_true_iff in Hn. destruct Hn as [Ht _].
    apply String.eqb_eq in Hs. simpl. rewrite Hs, Ht.
    f_equal. apply IH. intros m Hm. apply H. now right.
  - intros x Hx. specialize (H x Hx). unfold clean_name in H.
    apply andb_true_iff in H. destruct H as [H _].
    apply andb_true_iff in H. destruct H as [_ H].
    now apply negb_true_iff in H.
Qed.

(** ** More invariants of a session *)

Lemma packages_to_install_incl (packages installed : list string) (p : string) :
  In p (packages_to_install packages installed) -> In p packages.
Proof. intros H. now apply packages_to_install_diff in H. Qed.

Lemma step_keeps_names_clean (P : Provider) (o : Op) (s : State) :
  Forall (fun p => clean_name p = true) (installed_packages s) ->
  Forall (fun p => clean_name p = true) (installed_packages (step P o s)).
Proof.
  destruct o as [a|]; [destruct a as [c t ip an at_]|];
    destruct s as [sb inst cfg tr].
  all: cbn [installed_packages]; intros H.
  all: run_tool; cbn [installed_packages]; auto.
  all: apply Forall_app; split; [exact H|].
  all: apply Forall_forall; intros p Hp.
  all: apply (parse_packages_clean ip), (packages_to_install_incl _ inst).
  all: match goal with E : packages_to_install _ _ = _ |- _ => now rewrite E end.
Qed.

(** X10: in every state a process can reach, each tracked package name is
    clean (not empty, no comma, no blanks around it), and a sandbox, if there
    is one, was created with the network setting the shared configuration
    still shows. *)
Theorem session_invariants (P : Provider) (s : State) :
  reachable P s ->
  (forall p, In p (installed_packages s) -> clean_name p = true) /\
  (forall h, sandbox s = Some h ->
             sb_network_enabled h = config_network_enabled s).
Proof.
  induction 1 as [b | o s _ [IH1 IH2]].
  - split; [intros p [] | discriminate].
  - split.
    + apply Forall_forall, step_keeps_names_clean, Forall_forall, IH1.
    + revert IH2. clear.
      destruct o as [a|]; [destruct a as [c t ip an at_]|];
        destruct s as [sb inst cfg tr].
      all: cbn [sandbox config_network_enabled]; intros IH.
      all: run_tool; cbn [sandbox config_network_enabled].
      all: intros h Hh; try discriminate.
      all: first [ now apply IH | now inversion Hh ].
Qed.

(** ** The closing words of the messages *)

Lemma startswith_self_app (p x : string) : PyStr.startswith p (p ++ x) = true.
Proof.
  induction p as [|c p IH]; simpl; [reflexivity|].
  now rewrite Ascii.eqb_refl, IH.
Qed.

Lemma reverse_append (a b : string) :
  PyStr.reverse (a ++ b) = PyStr.reverse b ++ PyStr.reverse a.
Proof.
  unfold PyStr.reverse.
  now rewrite chars_append, rev_app_distr, string_of_chars_app.
Qed.

Lemma str_append_assoc (a b c : string) : (a ++ b) ++ c = a ++ (b ++ c).
Proof. induction a as [|x a IH]; simpl; [reflexivity | now rewrite IH]. Qed.

Lemma endswith_app (suf a : string) : endswith suf (a ++ suf) = true.
Proof. unfold endswith. rewrite reverse_append. apply startswith_self_app. Qed.

(** X11: every message of the tool, success or failure, ends with the words
    "use the terminate tool to end the session." *)
Theorem every_message_asks_to_terminate (P : Provider) (a : Args) (s : State) :
  exists r, fst (execute P a s) = Val r /\
            endswith terminate_hint (output r) = true.
Proof.
  assert (Hi : forall e, endswith terminate_hint
                           (output (install_failed_result e)) = true).
  { intros e. unfold install_failed_result. cbn [output].
    change "Please use the terminate tool to end the session."
      with ("Please " ++ terminate_hint).
    rewrite <- !str_append_assoc. apply endswith_app. }
  assert (Hh : forall t e, endswith terminate_hint
                             (output (except_handler t e)) = true).
  { intros t e. unfold except_handler, timed_out_result, exec_error_result.
    destruct (PyStr.contains _ _); cbn [output].
    all: change "Please use the terminate tool to end the session."
           with ("Please " ++ terminate_hint).
    all: rewrite <- !str_append_assoc; apply endswith_app. }
  assert (Hs : forall out t b, endswith terminate_hint
                                 (output (success_result out t b)) = true).
  { intros out t b. unfold success_result, success_message. cbn [output].
    change "Task completed. To execute other code, please send a new request; if no further tasks, use the terminate tool to end the session."
      with ("Task completed. To execute other code, please send a new request; if no further tasks, " ++ terminate_hint).
    rewrite <- !str_append_assoc. apply endswith_app. }
  destruct a as [c t ip an at_], s as [sb inst cfg tr].
  run_tool.
  all: eexists; split; [reflexivity | auto].
Qed.

(** X12: after a request that succeeded and kept its sandbox, every package
    the request named is tracked. *)
Theorem success_tracks_requested_packages (P : Provider) (a : Args) (s : State)
    (r : ToolResult) :
  fst (execute P a s) = Val r ->
  error r = None ->
  auto_terminate a = false ->
  forall p, In p (parse_packages (install_packages a)) ->
            In p (installed_packages (snd (execute P a s))).
Proof.
  intros Hr Herr Hat.
  assert (H : packages_to_install (parse_packages (install_packages a))
                (installed_packages (snd (execute P a s))) = []).
  { revert Hr Herr Hat.
    destruct a as [c t ip an at_], s as [sb inst cfg tr].
    cbn [auto_terminate install_packages installed_packages].
    intros Hr Herr ->. revert Hr.
    run_tool; cbn [installed_packages].
    all: intros Hr; inversion Hr; subst; clear Hr.
    all: try (exfalso; revert Herr;
              first [apply except_handler_error | discriminate]).
    all: try assumption.
    all: try (rewrite (parse_packages_falsy ip) by assumption; reflexivity).
    all: match goal with
         | E : packages_to_install _ _ = _ |- _ =>
             rewrite <- E; apply packages_to_install_done
         end. }
  intros p Hp.
  destruct (PyStr.mem p (installed_packages (snd (execute P a s)))) eqn:E.
  - now apply mem_in.
  - exfalso.
    assert (Hin : In p (packages_to_install
                          (parse_packages (install_packages a))
                          (installed_packages (snd (execute P a s))))).
    { apply packages_to_install_diff. split; [assumption|].
      now apply mem_not_in. }
    rewrite H in Hin. exact Hin.
Qed.


(** ** The command-line runner *)

(** X13: the interactive entry keeps the lines up to the first line that reads
    "eof" (in any letter case, blanks around it ignored) and drops that line
    and everything after it; when the input ends without such a line, all
    lines are kept. *)
Theorem read_code_lines_prefix (stdin : list string) :
  exists rest,
    stdin = (read_code_lines stdin ++ rest)%list /\
    (forall l, In l (read_code_lines stdin) -> is_eof_line l = false) /\
    match rest with
    | [] => True
    | marker :: _ => is_eof_line marker = true
    end.
Proof.
  induction stdin as [|line stdin [rest (H1 & H2 & H3)]]; simpl.
  - exists []. repeat split. intros l [].
  - destruct (is_eof_line line) eqn:E.
    + exists (line :: stdin). repeat split; [intros l [] | exact E].
    + exists rest. split; [simpl; now rewrite <- H1|].
      split; [|exact H3].
      intros l [<-|Hl]; [exact E | now apply H2].
Qed.

Lemma check_code_run (code c : string) :
  check_code code = RunCode c -> c = code /\ PyStr.strip c <> "".
Proof.
  unfold check_code. destruct (PyStr.truthy (PyStr.strip code)) eqn:E;
    [|discriminate].
  intros H. inversion H. subst. split; [reflexivity|].
  intros Hs. rewrite Hs in E. discriminate.
Qed.

Lemma check_code_cases (code : string) :
  (PyStr.strip code <> "" /\ check_code code = RunCode code) \/
  (PyStr.strip code = "" /\ check_code code = NoCode).
Proof.
  unfold check_code. destruct (PyStr.strip code); [right | left]; split;
    try reflexivity; discriminate.
Qed.

(** X14: where the code of the command-line runner comes from.  A non-empty
    [--code] is taken, whatever the file and the terminal hold; otherwise the
    file of a non-empty [--file] is read, and its content taken or the read
    failure reported; otherwise the lines typed at the terminal are taken.
    The text taken goes on unchanged if it has a character that is not a
    blank, and is refused otherwise.  So the runner goes on with [c] exactly
    when [c] is not blank and is the text of the first source in that order,
    and it reports a read failure exactly when [--code] is empty and reading
    the [--file] raised. *)
Theorem select_code_priority (fs : FileSystem) (stdin : list string)
    (args : CliArgs) :
  (forall k, arg_code args = Some k -> PyStr.truthy k = true ->
     select_code fs stdin args = check_code k) /\
  (forall path, opt_truthy (arg_code args) = false ->
     arg_file args = Some path -> PyStr.truthy path = true ->
     select_code fs stdin args
     = match fs path with
       | Val content => check_code content
       | Exc e => ReadFailed e
       end) /\
  (opt_truthy (arg_code args) = false -> opt_truthy (arg_file args) = false ->
     select_code fs stdin args
     = check_code (PyStr.join PyStr.nl (read_code_lines stdin))) /\
  (forall c, select_code fs stdin args = RunCode c <->
     PyStr.strip c <> "" /\
     ((opt_truthy (arg_code args) = true /\ arg_code args = Some c) \/
      (opt_truthy (arg_code args) = false /\ opt_truthy (arg_file args) = true /\
       exists path, arg_file args = Some path /\ fs path = Val c) \/
      (opt_truthy (arg_code args) = false /\ opt_truthy (arg_file args) = false /\
       c = PyStr.join PyStr.nl (read_code_lines stdin)))) /\
  (forall e, select_code fs stdin args = ReadFailed e <->
     opt_truthy (arg_code args) = false /\ opt_truthy (arg_file args) = true /\
     exists path, arg_file args = Some path /\ fs path = Exc e).
Proof.
  assert (Hrun : forall code c, check_code code = RunCode c <->
                                PyStr.strip c <> "" /\ c = code).
  { intros code c. destruct (check_code_cases code) as [[Hs ->]|[Hs ->]]; split.
    - intros H. inversion H. subst. now split.
    - intros [_ ->]. reflexivity.
    - discriminate.
    - intros [Hc ->]. contradiction. }
  assert (Hnf : forall code e, check_code code <> ReadFailed e).
  { intros code e. destruct (check_code_cases code) as [[_ ->]|[_ ->]];
      discriminate. }
  unfold select_code.
  destruct (arg_code args) as [k|] eqn:Ek; cbn [opt_truthy];
    [destruct (PyStr.truthy k) eqn:Etk|].
  - (* --code given and not empty *)
    split; [intros k' Hk' _; now inversion Hk'|].
    split; [discriminate|]. split; [discriminate|]. split.
    + intros c. rewrite Hrun. split.
      * intros [Hs ->]. split; [exact Hs|]. left. now split.
      * intros [Hs [[_ H]|[[H _]|[H _]]]]; try discriminate.
        inversion H. now split.
    + intros e. split; [intros H; now apply Hnf in H|].
      intros [H _]. discriminate.
  - (* --code empty *)
    split; [intros k' Hk' Ht; inversion Hk'; subst; congruence|].
    destruct (arg_file args) as [path|] eqn:Ef; cbn [opt_truthy];
      [destruct (PyStr.truthy path) eqn:Etp|].
    + split; [intros p _ Hp _; now inversion Hp|]. split; [discriminate|].
      destruct (fs path) as [content|e0] eqn:Efs; split.
      * intros c. rewrite Hrun. split.
        -- intros [Hs ->]. split; [exact Hs|]. right. left.
           repeat split. now exists path.
        -- intros [Hs [[H _]|[(_ & _ & p & Hp & Hfs)|(_ & H & _)]]];
             try discriminate.
           inversion Hp. subst. rewrite Efs in Hfs. inversion Hfs. now split.
      * intros e. split; [intros H; now apply Hnf in H|].
        intros (_ & _ & p & Hp & Hfs). inversion Hp. subst. congruence.
      * intros c. split; [discriminate|].
        intros [Hs [[H _]|[(_ & _ & p & Hp & Hfs)|(_ & H & _)]]];
          try discriminate.
        inversion Hp. subst. congruence.
      * intros e. split.
        -- intros H. inversion H. subst. repeat split. now exists path.
        -- intros (_ & _ & p & Hp & Hfs). inversion Hp. subst. congruence.
    + split; [intros p _ Hp Ht; inversion Hp; subst; congruence|].
      split; [reflexivity|]. split.
      * intros c. rewrite Hrun. split.
        -- intros [Hs ->]. split; [exact Hs|]. right. right. now repeat split.
        -- intros [Hs [[H _]|[(_ & H & _)|(_ & _ & H)]]]; try discriminate.
           now split.
      * intros e. split; [intros H; now apply Hnf in H|].
        intros (_ & H & _). discriminate.
    + split; [discriminate|]. split; [reflexivity|]. split.
      * intros c. rewrite Hrun. split.
        -- intros [Hs ->]. split; [exact Hs|]. right. right. now repeat split.
        -- intros [Hs [[H _]|[(_ & H & _)|(_ & _ & H)]]]; try discriminate.
           now split.
      * intros e. split; [intros H; now apply Hnf in H|].
        intros (_ & H & _). discriminate.
  - (* --code not given *)
    split; [discriminate|].
    destruct (arg_file args) as [path|] eqn:Ef; cbn [opt_truthy];
      [destruct (PyStr.truthy path) eqn:Etp|].
    + split; [intros p _ Hp _; now inversion Hp|]. split; [discriminate|].
      destruct (fs path) as [content|e0] eqn:Efs; split.
      * intros c. rewrite Hrun. split.
        -- intros [Hs ->]. split; [exact Hs|]. right. left.
           repeat split. now exists path.
        -- intros [Hs [[H _]|[(_ & _ & p & Hp & Hfs)|(_ & H & _)]]];
             try discriminate.
           inversion Hp. subst. rewrite Efs in Hfs. inversion Hfs. now split.
      * intros e. split; [intros H; now apply Hnf in H|].
        intros (_ & _ & p & Hp & Hfs). inversion Hp. subst. congruence.
      * intros c. split; [discriminate|].
        intros [Hs [[H _]|[(_ & _ & p & Hp & Hfs)|(_ & H & _)]]];
          try discriminate.
        inversion Hp. subst. congruence.
      * intros e. split.
        -- intros H. inversion H. subst. repeat split. now exists path.
        -- intros (_ & _ & p & Hp & Hfs). inversion Hp. subst. congruence.
    + split; [intros p _ Hp Ht; inversion Hp; subst; congruence|].
      split; [reflexivity|]. split.
      * intros c. rewrite Hrun. split.
        -- intros [Hs ->]. split; [exact Hs|]. right. right. now repeat split.
        -- intros [Hs [[H _]|[(_ & H & _)|(_ & _ & H)]]]; try discriminate.
           now split.
      * intros e. split; [intros H; now apply Hnf in H|].
        intros (_ & H & _). discriminate.
    + split; [discriminate|]. split; [reflexivity|]. split.
      * intros c. rewrite Hrun. split.
        -- intros [Hs ->]. split; [exact Hs|]. right. right. now repeat split.
        -- intros [Hs [[H _]|[(_ & H & _)|(_ & _ & H)]]]; try discriminate.
           now split.
      * intros e. split; [intros H; now apply Hnf in H|].
        intros (_ & H & _). discriminate.
Qed.

Example select_code_samples :
  select_code (fun _ => Val "print(2)") ["print(3)"; "eof"]
    (mkCliArgs (Some "print(1)") (Some "script.py") "" 30 false)
  = RunCode "print(1)" /\
  select_code (fun _ => Val "print(2)") ["print(3)"; "eof"]
    (mkCliArgs (Some "") (Some "script.py") "" 30 false)
  = RunCode "print(2)" /\
  select_code (fun _ => Exc (mkFault FilesystemError "No such file")) ["print(3)"]
    (mkCliArgs None (Some "script.py") "" 30 false)
  = ReadFailed (mkFault FilesystemError "No such file") /\
  select_code (fun _ => Val "print(2)") ["x = 1"; "print(x)"; " EOF "; "print(4)"]
    (mkCliArgs None None "" 30 false)
  = RunCode ("x = 1" ++ PyStr.nl ++ "print(x)") /\
  select_code (fun _ => Val "print(2)") ["  "; "eof"]
    (mkCliArgs None None "" 30 false)
  = NoCode.
Proof. repeat split; reflexivity. Qed.

(** X15: [run_sandbox_code] never lets the agent run more than 15 steps; it
    returns the agent's result when nothing raised and "Execution failed:
    ..." otherwise; and it executes the [Terminate] tool itself exactly when
    the agent came back without raising and without being finished. *)
Theorem run_sandbox_code_report (agent : Agent) (max_steps : Z)
    (terminate : Result string) (code packages : string) (timeout : Z)
    (allow_network : bool) :
  let rep := run_sandbox_code agent max_steps terminate code packages timeout
               allow_network in
  let r := agent (build_prompt code packages timeout allow_network)
                 (max_steps_used rep) in
  (max_steps_used rep <= 15 /\ max_steps_used rep <= max_steps)%Z /\
  (terminate_executed rep = true <->
     (exists result, run_outcome r = Val result) /\ finished r = false) /\
  (forall result, run_outcome r = Val result ->
     (finished r = true \/ exists t, terminate = Val t) ->
     returned rep = result) /\
  (forall e, run_outcome r = Exc e ->
     returned rep = "Execution failed: " ++ fault_msg e) /\
  (forall result e, run_outcome r = Val result -> finished r = false ->
     terminate = Exc e -> returned rep = "Execution failed: " ++ fault_msg e).
Proof.
  cbv zeta. unfold run_sandbox_code.
  set (prompt := build_prompt code packages timeout allow_network).
  destruct (agent prompt (Z.min max_steps 15)) as [out fin] eqn:Er.
  destruct out as [result|e]; destruct fin; destruct terminate as [t|e'];
    cbn [run_outcome finished negb max_steps_used terminate_executed returned];
    rewrite ?Er; cbn [run_outcome finished].
  all: split; [lia|].
  all: split; [split; [intros H; try discriminate; split; eauto
                      | intros [[x Hx] Hf]; congruence] |].
  all: repeat split; intros; try congruence.
  all: try (destruct H0 as [H0|[x H0]]; congruence).
Qed.

(** ** The Docker probe of the test script *)

(** X16: [check_docker] says yes exactly when [docker --version] and then
    [docker info] both complete with return code 0; [docker info] is not
    started unless [docker --version] completed with 0. *)
Theorem check_docker_true_iff (sp : Subprocess) (st : Probe) :
  (fst (check_docker sp st) = Val true <->
   exists o1 o2,
     sp (sp_calls st) ["docker"; "--version"] = Completed 0 o1 /\
     sp (sp_calls st + 1) ["docker"; "info"] = Completed 0 o2) /\
  sp_calls (snd (check_docker sp st))
  = match sp (sp_calls st) ["docker"; "--version"] with
    | Completed 0 _ => sp_calls st + 2
    | _ => sp_calls st + 1
    end.
Proof.
  unfold check_docker.
  destruct (sp (sp_calls st) ["docker"; "--version"]) as [rc o1| |e] eqn:E1.
  2,3: split; [split; [discriminate | intros (x & y & H & _); discriminate]
              | reflexivity].
  destruct (Z.eqb_spec rc 0) as [->|Hrc]; cbn [negb].
  - destruct (sp (sp_calls st + 1) ["docker"; "info"]) as [rc2 o2| |e] eqn:E2.
    2,3: split; [split; [discriminate | intros (x & y & _ & H); discriminate]
                | reflexivity].
    destruct (Z.eqb_spec rc2 0) as [->|Hrc2]; cbn [negb fst snd sp_calls].
    + split; [split; eauto | reflexivity].
    + split; [|reflexivity]. split; [discriminate|].
      intros (x & y & _ & H). inversion H. contradiction.
  - cbn [fst snd sp_calls]. split.
    + split; [discriminate|]. intros (x & y & H & _). inversion H. contradiction.
    + destruct rc; try reflexivity. contradiction.
Qed.

Lemma check_docker_counts (sp : Subprocess) (st : Probe) :
  checks (snd (check_docker sp st)) = S (checks st) /\
  sleeps (snd (check_docker sp st)) = sleeps st.
Proof.
  unfold check_docker.
  destruct (sp (sp_calls st) ["docker"; "--version"]) as [rc o1| |e];
    try (split; reflexivity).
  destruct (negb (rc =? 0)%Z); try (split; reflexivity).
  destruct (sp (sp_calls st + 1) ["docker"; "info"]) as [rc2 o2| |e];
    try (split; reflexivity).
  destruct (negb (rc2 =? 0)%Z); split; reflexivity.
Qed.

Lemma wait_from_spec (sp : Subprocess) (m d : Z) (todo i : nat) (st : Probe) :
  Z.of_nat (i + todo) = Z.max 0 m ->
  let r := wait_from sp m d i todo st in
  match fst r with
  | Val true =>
      exists k, k < todo /\
        checks (snd r) = checks st + k + 1 /\
        sleeps (snd r) = (sleeps st ++ repeat d k)%list
  | Val false =>
      checks (snd r) = checks st + todo /\
      sleeps (snd r) = (sleeps st ++ repeat d (todo - 1))%list
  | Exc _ =>
      exists k, k < todo /\
        checks (snd r) = checks st + k + 1 /\
        sleeps (snd r) = (sleeps st ++ repeat d k)%list
  end.
Proof.
  revert i st. induction todo as [|todo IH]; intros i st Hm; cbv zeta.
  - simpl. split; [lia | now rewrite app_nil_r].
  - simpl wait_from.
    pose proof (check_docker_counts sp st) as [Hc Hs].
    destruct (check_docker sp st) as [[[|]|e] st1] eqn:E; cbn [fst snd] in *.
    + exists 0. repeat split; [lia | lia | now rewrite app_nil_r].
    + assert (Hm' : Z.of_nat (S i + todo) = Z.max 0 m) by (rewrite <- Hm; f_equal; lia).
      destruct (Z.ltb_spec (Z.of_nat i) (m - 1)) as [Hlt|Hge].
      * specialize (IH (S i)
                      (mkProbe (sp_calls st1) (checks st1) (sleeps st1 ++ [d]))
                      Hm').
        cbv zeta in IH. cbn [checks sleeps] in IH.
        destruct (wait_from sp m d (S i) todo _) as [[[|]|e] st3];
          cbn [fst snd] in *.
        -- destruct IH as (k & Hk & H1 & H2). exists (S k).
           repeat split; [lia | lia |].
           rewrite H2, Hs, <- app_assoc. reflexivity.
        -- destruct IH as [H1 H2]. split; [lia|].
           rewrite H2, Hs, <- app_assoc.
           assert (todo <> 0) by lia.
           replace (S todo - 1) with (S (todo - 1)) by lia. reflexivity.
        -- destruct IH as (k & Hk & H1 & H2). exists (S k).
           repeat split; [lia | lia |].
           rewrite H2, Hs, <- app_assoc. reflexivity.
      * assert (todo = 0) by lia. subst todo. simpl.
        split; [lia | now rewrite Hs, app_nil_r].
    + exists 0. repeat split; [lia | lia | now rewrite app_nil_r].
Qed.

(** X17: [wait_for_docker] probes at most [max_retries] times and sleeps
    [retry_interval] only between two probes, never after the last one.
    When it gives up it has probed [max_retries] times and slept one time
    less; when a probe says yes after [k] failed ones it has slept [k]
    times; with a limit of zero or less it gives up without probing. *)
Theorem wait_for_docker_spec (sp : Subprocess) (max_retries retry_interval : Z)
    (st : Probe) :
  let r := wait_for_docker sp max_retries retry_interval st in
  let n := Z.to_nat max_retries in
  match fst r with
  | Val false =>
      checks (snd r) = checks st + n /\
      sleeps (snd r) = (sleeps st ++ repeat retry_interval (n - 1))%list
  | _ =>
      exists k, k < n /\
        checks (snd r) = checks st + k + 1 /\
        sleeps (snd r) = (sleeps st ++ repeat retry_interval k)%list
  end.
Proof.
  cbv zeta. unfold wait_for_docker.
  pose proof (wait_from_spec sp max_retries retry_interval
                (Z.to_nat max_retries) 0 st) as H.
  cbv zeta in H.
  assert (Hm : Z.of_nat (0 + Z.to_nat max_retries) = Z.max 0 max_retries) by lia.
  specialize (H Hm).
  destruct (fst (wait_from sp max_retries retry_interval 0
                   (Z.to_nat max_retries) st)) as [[|]|e]; exact H.
Qed.

(** ** The two tests of the test script *)


(** X18: [run_basic_test] never raises and always ends with one [cleanup],
    also when the creation itself failed.  Before it, the calls are the seven
    of the script in their order, cut after the first one that raised; the
    test returns [True] exactly when all seven were made and none raised. *)
Theorem run_basic_test_spec (Q : TProvider) (tr : list TEvent) :
  exists b evs,
    run_basic_test Q tr = (Val b, (tr ++ evs ++ [tev_cleanup])%list) /\
    map tev_call evs = firstn (length evs) basic_calls /\
    (b = true <-> (length evs = 7 /\ existsb traised evs = false)) /\
    (b = false <->
       exists pre last, evs = (pre ++ [last])%list /\
         existsb traised pre = false /\ traised last = true).
Proof.
  run_test.
  all: repeat rewrite <- app_assoc; cbn [app].
  all: match goal with
       | |- exists b evs, (Val ?b0, (_ ++ ?l)%list) = _ /\ _ =>
           exists b0, (removelast l)
       end; cbn [removelast].
  all: split; [reflexivity|].
  all: split; [reflexivity|].
  all: split; (split; [intros H; try discriminate H|]).
  all: try (split; reflexivity).
  all: try (intros [H1 H2]; cbn in H1, H2; discriminate).
  all: try (intros _; reflexivity).
  all: try (intros (pre & last & He & Hp & Hl);
            apply (f_equal (existsb traised)) in He;
            rewrite existsb_app in He; cbn in He;
            rewrite Hp, Hl in He; discriminate).
  all: match goal with
       | |- exists _ _, ?l = _ /\ _ =>
           exists (removelast l), (List.last l tev_cleanup)
       end; cbn; repeat split; reflexivity.
Qed.

(** X19: [test_sandbox_timeout] never raises and always ends with one
    [cleanup].  It returns [True] exactly when creation and file write
    went through and the run command raised, whatever the exception; when
    the command completes within the 5 seconds it runs off its end and
    returns [None]; it returns [False] when the creation or the write
    raised. *)
Theorem test_sandbox_timeout_spec (Q : TProvider) (tr : list TEvent) :
  exists r evs,
    test_sandbox_timeout Q tr = (Val r, (tr ++ evs ++ [tev_cleanup])%list) /\
    match r with
    | Some true =>
        exists o1 o2 e,
          evs = [mkTEvent (TCreate None) (Done o1);
                 mkTEvent (TWriteFile "timeout_test.py" timeout_script) (Done o2);
                 mkTEvent (TRunCommand "python timeout_test.py" (Some 5%Z))
                          (Raised e)]
    | None =>
        exists o1 o2 o3,
          evs = [mkTEvent (TCreate None) (Done o1);
                 mkTEvent (TWriteFile "timeout_test.py" timeout_script) (Done o2);
                 mkTEvent (TRunCommand "python timeout_test.py" (Some 5%Z))
                          (Done o3)]
    | Some false =>
        (exists e, evs = [mkTEvent (TCreate None) (Raised e)]) \/
        (exists o1 e,
           evs = [mkTEvent (TCreate None) (Done o1);
                  mkTEvent (TWriteFile "timeout_test.py" timeout_script)
                           (Raised e)])
    end.
Proof.
  run_test.
  all: repeat rewrite <- app_assoc; cbn [app].
  all: match goal with
       | |- exists r evs, (Val ?r0, (_ ++ ?l)%list) = _ /\ _ =>
           exists r0, (removelast l)
       end; cbn [removelast].
  all: split; [reflexivity|]; eauto 6.
Qed.

Lemma run_basic_test_ends_with_cleanup (Q : TProvider) (tr : list TEvent) :
  exists b pre, run_basic_test Q tr = (Val b, (pre ++ [tev_cleanup])%list).
Proof.
  destruct (run_basic_test_spec Q tr) as (b & evs & H & _).
  exists b, (tr ++ evs)%list. now rewrite <- app_assoc.
Qed.

Lemma test_sandbox_timeout_ends_with_cleanup (Q : TProvider) (tr : list TEvent) :
  exists r pre, test_sandbox_timeout Q tr = (Val r, (pre ++ [tev_cleanup])%list).
Proof.
  destruct (test_sandbox_timeout_spec Q tr) as (r & evs & H & _).
  exists r, (tr ++ evs)%list. now rewrite <- app_assoc.
Qed.

Lemma run_basic_test_trace (Q : TProvider) :
  exists b tr1,
    run_basic_test Q [] = (Val b, tr1) /\
    tcount is_basic_create tr1 = 1 /\
    tcount is_timeout_create tr1 = 0 /\
    tcount is_tcleanup tr1 = 1.
Proof.
  run_test.
  all: repeat rewrite <- app_assoc; cbn [app].
  all: eexists; eexists; split; [reflexivity|].
  all: repeat split; reflexivity.
Qed.

Lemma test_sandbox_timeout_trace (Q : TProvider) (tr : list TEvent) :
  exists r evs,
    test_sandbox_timeout Q tr = (Val r, (tr ++ evs)%list) /\
    tcount is_basic_create evs = 0 /\
    tcount is_timeout_create evs = 1 /\
    tcount is_tcleanup evs = 1.
Proof.
  run_test.
  all: repeat rewrite <- app_assoc; cbn [app].
  all: eexists; eexists; split; [reflexivity|].
  all: repeat split; reflexivity.
Qed.

Lemma tcount_app (f : TEvent -> bool) (l r : list TEvent) :
  tcount f (l ++ r) = tcount f l + tcount f r.
Proof. unfold tcount. now rewrite filter_app, length_app. Qed.

(** X20: [main] of the test script, read off the calls the client receives.
    The client is called only when the Docker probe said yes; then the basic
    test runs once (one [create] with the test's config); the timeout test
    (the one [create] without config) runs exactly when the probe said yes
    and the basic test returned [True]; each test that ran made one
    [cleanup], and the last call of all is a [cleanup]. *)
Theorem test_main_gated (sp : Subprocess) (Q : TProvider) :
  let r := fst (fst (test_main sp Q)) in
  let tr := snd (test_main sp Q) in
  let ready := fst (wait_for_docker sp 3 5 (mkProbe 0 0 [])) in
  let basic := fst (run_basic_test Q []) in
  (ready <> Val true -> tr = []) /\
  (forall log, r = Val log ->
     In TimeoutPassed log \/ In TimeoutFailed log ->
     In BasicPassed log /\ basic = Val true) /\
  (tr <> [] -> exists pre, tr = (pre ++ [tev_cleanup])%list) /\
  tcount is_basic_create tr
  = match ready with Val true => 1 | _ => 0 end /\
  tcount is_timeout_create tr
  = match ready, basic with Val true, Val true => 1 | _, _ => 0 end /\
  tcount is_tcleanup tr
  = tcount is_basic_create tr + tcount is_timeout_create tr.
Proof.
  cbv zeta. unfold test_main.
  destruct (wait_for_docker sp 3 5 (mkProbe 0 0 [])) as [[[|]|e] st] eqn:Ew;
    cbn [fst snd].
  2,3: split; [reflexivity|]; split;
       [intros lg Hlg Hin; inversion Hlg; subst; cbn in Hin;
        intuition discriminate|];
       split; [congruence|]; repeat split; reflexivity.
  destruct (run_basic_test_trace Q) as (b & tr1 & Hb & Hc1 & Hc2 & Hc3).
  destruct (run_basic_test_ends_with_cleanup Q []) as (b' & pre & Hb').
  rewrite Hb in Hb'. inversion Hb'. subst b' tr1. clear Hb'.
  rewrite Hb. destruct b.
  - destruct (test_sandbox_timeout_trace Q (pre ++ [tev_cleanup]))
      as (r & evs & Ht & Hd1 & Hd2 & Hd3).
    destruct (test_sandbox_timeout_ends_with_cleanup Q (pre ++ [tev_cleanup]))
      as (r' & pre' & Ht').
    rewrite Ht. cbn [fst snd].
    split; [congruence|]. split.
    { intros lg Hlg _. inversion Hlg; subst. split; [now left | reflexivity]. }
    split.
    { intros _. rewrite Ht in Ht'. inversion Ht'. now exists pre'. }
    rewrite !(tcount_app _ (pre ++ [tev_cleanup]) evs).
    rewrite Hc1, Hc2, Hc3, Hd1, Hd2, Hd3.
    repeat split; reflexivity.
  - cbn [fst snd].
    split; [congruence|]. split.
    { intros lg Hlg Hin. inversion Hlg; subst. cbn in Hin.
      intuition discriminate. }
    split; [intros _; now exists pre|].
    rewrite Hc1, Hc2, Hc3. repeat split; reflexivity.
Qed.

(** ** Witnesses of the further properties *)

(** Witness of X12. *)
Lemma success_tracks_requested_packages_witness :
  fst (execute (provider_ok "") req_numpy (init false))
  = Val (success_result "" 30 false) /\
  In "pandas"
     (installed_packages (snd (execute (provider_ok "") req_numpy (init false)))).
Proof.
  split; [reflexivity|].
  apply (success_tracks_requested_packages (provider_ok "") req_numpy
           (init false) (success_result "" 30 false) eq_refl eq_refl eq_refl).
  vm_compute. auto.
Defined.

(** Witness of X3. *)
Lemma call_arguments_witness :
  In (mkEvent (CRunCommand (install_cmd ["numpy"; "pandas"]) 120) (Done ""))
     (emitted (init false)
        (snd (execute (provider_ok "") req_numpy (init false)))) /\
  (is_install (mkEvent (CRunCommand (install_cmd ["numpy"; "pandas"]) 120)
                       (Done "")) = true ->
   ev_call (mkEvent (CRunCommand (install_cmd ["numpy"; "pandas"]) 120) (Done ""))
   = CRunCommand
       (install_cmd
          (packages_to_install (parse_packages (install_packages req_numpy))
             (installed_packages (init false)))) 120).
Proof.
  assert (Hin : In (mkEvent (CRunCommand (install_cmd ["numpy"; "pandas"]) 120)
                            (Done ""))
                   (emitted (init false)
                      (snd (execute (provider_ok "") req_numpy (init false))))).
  { vm_compute. auto. }
  split; [exact Hin|].
  intros Hi.
  apply (call_arguments (provider_ok "") req_numpy (init false) _ Hin).
  exact Hi.
Defined.

(** Witness of X4. *)
Lemma creation_fault_ends_request_witness :
  sandbox (init false) = None /\
  provider_late_start (trace (init false)) (CCreate (allow_network req_net))
  = Raised (mkFault ProvisioningError "Docker is not running") /\
  fst (execute provider_late_start req_net (init false))
  = Val (exec_error_result "Docker is not running").
Proof.
  split; [reflexivity|]. split; [reflexivity|].
  rewrite (creation_fault_ends_request provider_late_start req_net (init false)
             (mkFault ProvisioningError "Docker is not running")
             eq_refl eq_refl).
  reflexivity.
Defined.

(** Witness of X5. *)
Lemma session_stays_open_witness :
  auto_terminate req_sleep = false /\
  count is_cleanup
    (emitted (init false)
       (snd (execute (provider_run_raises fault_timed_out) req_sleep
               (init false)))) = 0.
Proof.
  split; [reflexivity|].
  apply (session_stays_open (provider_run_raises fault_timed_out) req_sleep
           (init false) eq_refl).
Defined.

(** Witness of X8. *)
Lemma parse_packages_clean_witness :
  In "pandas" (parse_packages " numpy , pandas,, requests ,") /\
  clean_name "pandas" = true.
Proof.
  assert (Hin : In "pandas" (parse_packages " numpy , pandas,, requests ,")).
  { vm_compute. auto. }
  split; [exact Hin|].
  exact (parse_packages_clean " numpy , pandas,, requests ," "pandas" Hin).
Defined.

(** Witness of X9. *)
Lemma parse_packages_round_trip_witness :
  (forall n, In n ["numpy"; "scikit-learn"; "numpy"] -> clean_name n = true) /\
  parse_packages (PyStr.join "," ["numpy"; "scikit-learn"; "numpy"])
  = ["numpy"; "scikit-learn"; "numpy"].
Proof.
  assert (Hc : forall n, In n ["numpy"; "scikit-learn"; "numpy"] ->
                         clean_name n = true).
  { intros n [<-|[<-|[<-|[]]]]; reflexivity. }
  split; [exact Hc|].
  exact (parse_packages_round_trip ["numpy"; "scikit-learn"; "numpy"] Hc).
Defined.

(** Witness of X10. *)
Lemma session_invariants_witness :
  reachable (provider_ok "") s_numpy_ok /\
  (forall p, In p (installed_packages s_numpy_ok) -> clean_name p = true).
Proof.
  assert (R : reachable (provider_ok "") s_numpy_ok).
  { apply (reach_step (provider_ok "") (OpExecute req_numpy)). apply reach_init. }
  split; [exact R|].
  apply (session_invariants (provider_ok "") s_numpy_ok R).
Defined.
